(** * aries-avalon: the identifier lookup and the health check of main.go

    A shallow embedding of the two handlers of the service that talk to
    the Solr index, [ariesLookup] and [healthCheckHandler], and of the
    helper [getAPIResponse] they share, in the revision of main.go that
    falls back on [identifier_ssim] and looks for derivatives.

    - Go strings are byte strings: [string] of the standard library.
    - Go [int] values (HTTP status codes, [numFound]) are [Z]; the code
      only compares them.
    - The index is reached through [client.Get]: a function from the URL
      requested to what the HTTP client hands back.
    - [json.Unmarshal] decodes into the variable [resp], which the
      handler reuses for every response: it is a function of the body
      and of the previous contents of [resp].
    - A handler either writes a reply ([c.String], [c.JSON]) or dies on a
      run-time error (index out of range); the GET requests it made are
      recorded in order.
    - [ariesLookup] is cut in two where its variables [qs], [urlStr] and
      [resp] are settled: [search] (the one or two queries for the record)
      and [respond] (the reply made from the record). *)

From Stdlib Require Import ZArith NArith Ascii String List Bool Lia.
From stdpp Require Import gmap strings.
Import ListNotations.

Set Warnings "-register-all".

Local Open Scope string_scope.
Local Open Scope list_scope.
Local Open Scope Z_scope.

(** ** Strings *)

(** The double quote character (byte 34), escaped in the literals of the Go
    source. *)
Definition dq : string := String (ascii_of_nat 34) EmptyString.

(** [contains s sub]: [sub] occurs in [s] (Go's [strings.Contains]). *)
Definition contains (s sub : string) : Prop :=
  exists pre post : string, s = pre +:+ sub +:+ post.

Fixpoint hasPrefix (s p : string) {struct p} : bool :=
  match p, s with
  | EmptyString, _ => true
  | String x p', String y s' => Ascii.eqb x y && hasPrefix s' p'
  | String _ _, EmptyString => false
  end.

Fixpoint containsb (s sub : string) : bool :=
  hasPrefix s sub ||
  match s with
  | EmptyString => false
  | String _ s' => containsb s' sub
  end.

(** ** net/url: [url.QueryEscape] *)

Definition upperhex : list ascii := list_ascii_of_string "0123456789ABCDEF".

(** [shouldEscape(c, encodeQueryComponent)]: only the unreserved
    characters of RFC 3986 are left alone. *)
Definition shouldEscape (c : ascii) : bool :=
  let n := N_of_ascii c in
  if ((97 <=? n) && (n <=? 122) || (65 <=? n) && (n <=? 90)
      || (48 <=? n) && (n <=? 57))%N
  then false
  else if ((n =? 45) || (n =? 95) || (n =? 46) || (n =? 126))%N
  then false
  else true.

Definition hexdigit (n : N) : ascii := nth (N.to_nat n) upperhex "0"%char.

Fixpoint QueryEscape (s : string) : string :=
  match s with
  | EmptyString => EmptyString
  | String c s' =>
      if shouldEscape c then
        if (N_of_ascii c =? 32)%N then String "+"%char (QueryEscape s')
        else String "%"%char
               (String (hexdigit (N.shiftr (N_of_ascii c) 4))
                  (String (hexdigit (N.land (N_of_ascii c) 15))
                     (QueryEscape s')))
      else String c (QueryEscape s')
  end.

(** ** The data of main.go *)

Record serviceURL := {
  URL : string;
  Protocol : string
}.

(** [aries] is the structure of the response returned by /api/aries/:id *)
Record aries := {
  Identifiers : list string;
  ServiceURL : list serviceURL;
  AccessURL : list string;
  AdminURL : list string;
  MetadataURL : list string;
  MasterFile : list string;
  DerivativeFile : list string
}.

(** [solrDoc]; the field [DerivativeFile] of the source is named after its
    JSON tag here, [aries] has a field of the same name. *)
Record solrDoc := {
  ID : string;
  Model : list string;
  PartOf : list string;
  FileLocation : string;
  IdentifierSSIM : list string;
  derivativeFile_ssi : string
}.

Record solrHeader := {
  Status : Z;
  QTime : Z
}.

Record solrResponse := {
  NumFound : Z;
  Start : Z;
  Docs : list solrDoc
}.

Record solrFullResponse := {
  ResponseHeader : solrHeader;
  Response : solrResponse
}.

(** The zero value of [var resp solrFullResponse]. *)
Definition zeroResponse : solrFullResponse :=
  {| ResponseHeader := {| Status := 0; QTime := 0 |};
     Response := {| NumFound := 0; Start := 0; Docs := [] |} |}.

(** ** The outside world *)

(** What [client.Get(url)] followed by reading the body gives: an error
    of the transport (connection refused, timeout after 10 s, ...) with
    its text, or a response with its status code and body. *)
Inductive httpResult :=
| GetError (err : string)
| GetResponse (StatusCode : Z) (body : string).

(** What a handler leaves behind: the reply written on the gin context,
    or a run-time panic. *)
Inductive reply :=
| RString (code : Z) (msg : string)
| RJSON (code : Z) (out : aries)
| RJSONMap (code : Z) (hcMap : gmap string string)
| RPanic.

(** A computation inside a handler: it either goes on with a value or is
    over with a [reply]; the list is the URLs requested so far, oldest
    first. *)
Definition handler (A : Type) : Type :=
  list string -> (A + reply) * list string.

Definition ret {A} (a : A) : handler A := fun tr => (inl a, tr).

Definition bind {A B} (m : handler A) (k : A -> handler B) : handler B :=
  fun tr =>
    match m tr with
    | (inl a, tr') => k a tr'
    | (inr r, tr') => (inr r, tr')
    end.

(** [c.String(...)] or [c.JSON(...)] followed by the end of the handler. *)
Definition finish {A} (r : reply) : handler A := fun tr => (inr r, tr).

#[global] Instance handler_ret : MRet handler := @ret.
#[global] Instance handler_bind : MBind handler := fun A B k m => bind m k.

(** [s[0]] on a slice: a run-time panic when the slice is empty. *)
Definition index0 {A} (s : list A) : handler A :=
  match s with
  | x :: _ => ret x
  | [] => finish RPanic
  end.

Definition run (h : handler Empty_set) : reply * list string :=
  match h [] with
  | (inl e, _) => match e with end
  | (inr r, tr) => (r, tr)
  end.

(** An outbound call: the URL requested is recorded. *)
Definition call {A} (f : string -> A) (url : string) : handler A :=
  fun tr => (inl (f url), tr ++ [url]).

(** The query strings [qs] of [ariesLookup], as [url.QueryEscape] and
    [fmt.Sprintf] make them from the identifier between double quotes, and
    its field lists [fl]. *)
Definition primaryQuery (passedID : string) : string :=
  QueryEscape ("id:" +:+ dq +:+ passedID +:+ dq).

Definition fallbackQuery (passedID : string) : string :=
  QueryEscape ("identifier_ssim:" +:+ dq +:+ passedID +:+ dq).

Definition derivedQuery (docID : string) : string :=
  QueryEscape ("isDerivationOf_ssim:" +:+ dq +:+ docID +:+ dq).

Definition lookupFields : string :=
  "&fl=id,identifier_ssim,file_location_ssi,has_model_ssim,isPartOf_ssim".

Definition derivedFields : string := "&fl=id,derivativeFile_ssi".

(** A record the derivation can classify: it has a model, and it is a
    MediaObject or has a parent. *)
Definition classified (doc : solrDoc) : Prop :=
  exists model0 : string,
    head (Model doc) = Some model0 /\
    (model0 <> "MediaObject" -> PartOf doc <> []).

(** [out.MasterFile]: the file location, when there is one. *)
Definition masterFileOf (doc : solrDoc) : list string :=
  if negb (String.eqb (FileLocation doc) "") then [FileLocation doc] else [].

Definition nonEmptyDerivative (d : solrDoc) : bool :=
  negb (String.eqb (derivativeFile_ssi d) "").

Section Service.

(** Config info; Avalon solr & host URL *)
Variable solrURL : string.
Variable solrCore : string.
Variable avalonURL : string.

(** The HTTP client. *)
Variable clientGet : string -> httpResult.

(** [json.Unmarshal([]byte(respStr), &resp)]: the new contents of
    [resp] and the error, [None] for nil. *)
Variable Unmarshal :
  string -> solrFullResponse -> solrFullResponse * option string.

(** [getAPIResponse] is a helper used to call a JSON endpoint and return
    the response as a string *)
Definition getAPIResponse (url : string) : string * option string :=
  match clientGet url with
  | GetError err => ("", Some err)
  | GetResponse StatusCode respString =>
      if negb (StatusCode =? 200)%Z then ("", Some respString)
      else (respString, None)
  end.

(** [fmt.Sprintf("%s/%s/select?q=%s&wt=json&indent=true%s", solrURL,
    solrCore, qs, fl)] *)
Definition selectURL (qs fl : string) : string :=
  solrURL +:+ "/" +:+ solrCore +:+ "/select?q=" +:+ qs
    +:+ "&wt=json&indent=true" +:+ fl.

(** [healthCheckHandler] reports the health of the service *)
Definition healthCheckHandler : handler Empty_set :=
  let hcMap : gmap string string := ∅ in
  let hcMap := <["AriesAvalon" := "true"]> hcMap in
  let url := solrURL +:+ "/" +:+ solrCore +:+ "/select?q=*:*&wt=json&rows=0" in
  '(_, err) ← call getAPIResponse url;
  let hcMap :=
    match err with
    | Some _ => <["Avalon" := "false"]> hcMap
    | None => <["Avalon" := "true"]> hcMap
    end in
  finish (RJSONMap 200 hcMap).

(** The loop [for _, altID := range doc.IdentifierSSIM] *)
Definition appendAll (acc xs : list string) : list string :=
  fold_left (fun acc x => acc ++ [x]) xs acc.

(** The loop [for _, d := range resp.Response.Docs] *)
Definition appendDerivatives (acc : list string) (docs : list solrDoc)
  : list string :=
  fold_left
    (fun acc d =>
       if negb (String.eqb (derivativeFile_ssi d) "")
       then acc ++ [derivativeFile_ssi d] else acc)
    docs acc.

(** [ariesLookup], first part (up to the second test of [NumFound == 0]):
    the query by id and, without hits, the query by [identifier_ssim].
    It hands over the variables [qs], [urlStr] and [resp]. *)
Definition search (passedID : string)
  : handler (string * string * solrFullResponse) :=
  let qs := primaryQuery passedID in
  let fl := lookupFields in
  let urlStr := selectURL qs fl in
  '(respStr, err) ← call getAPIResponse urlStr;
  match err with
  | Some e => finish (RString 404 e)
  | None =>
  let resp := zeroResponse in
  let '(resp, marshallErr) := Unmarshal respStr resp in
  match marshallErr with
  | Some _ => finish (RString 404 (passedID +:+ " not found"))
  | None =>
  if (NumFound (Response resp) =? 0)%Z then
    let qs := fallbackQuery passedID in
    let urlStr := selectURL qs fl in
    '(respStr, _) ← call getAPIResponse urlStr;
    let '(resp, marshallErr) := Unmarshal respStr resp in
    match marshallErr with
    | Some _ => finish (RString 404 (passedID +:+ " not found"))
    | None =>
        if (NumFound (Response resp) =? 0)%Z
        then finish (RString 404 (passedID +:+ " not found"))
        else ret (qs, urlStr, resp)
    end
  else ret (qs, urlStr, resp)
  end end.

(** [ariesLookup], second part (from the test [NumFound > 1] on): the
    reply for the record found. *)
Definition respond (passedID qs urlStr : string) (resp : solrFullResponse)
  : handler Empty_set :=
  if (NumFound (Response resp) >? 1)%Z then
    finish (RString 400
              (passedID +:+ " has too many hits. Query: " +:+ urlStr))
  else
  doc ← index0 (Docs (Response resp));
  let identifiers := appendAll [ID doc] (IdentifierSSIM doc) in
  let masterFile :=
    if negb (String.eqb (FileLocation doc) "") then [FileLocation doc]
    else [] in
  let svcURL :=
    {| URL := solrURL +:+ "/" +:+ solrCore +:+ "/select?q=" +:+ qs;
       Protocol := "avalon-index" |} in
  model0 ← index0 (Model doc);
  if String.eqb model0 "MediaObject" then
    finish (RJSON 200
      {| Identifiers := identifiers;
         ServiceURL := [svcURL];
         AccessURL := [avalonURL +:+ "/media_objects/" +:+ ID doc];
         AdminURL := [avalonURL +:+ "/media_objects/" +:+ ID doc +:+ "/edit"];
         MetadataURL :=
           [avalonURL +:+ "/media_objects/" +:+ ID doc
              +:+ "/content/descMetadata"];
         MasterFile := masterFile;
         DerivativeFile := [] |})
  else
    partOf0 ← index0 (PartOf doc);
    let accessURL :=
      [avalonURL +:+ "/media_objects/" +:+ partOf0 +:+ "/section/" +:+ ID doc] in
    let adminURL :=
      [avalonURL +:+ "/media_objects/" +:+ partOf0 +:+ "/section/" +:+ ID doc
         +:+ "/edit"] in
    let qs := derivedQuery (ID doc) in
    let fl := derivedFields in
    let urlStr := selectURL qs fl in
    '(respStr, _) ← call getAPIResponse urlStr;
    let '(resp, marshallErr) := Unmarshal respStr resp in
    let derivativeFile :=
      match marshallErr with
      | None => appendDerivatives [] (Docs (Response resp))
      | Some _ => []
      end in
    finish (RJSON 200
      {| Identifiers := identifiers;
         ServiceURL := [svcURL];
         AccessURL := accessURL;
         AdminURL := adminURL;
         MetadataURL := [];
         MasterFile := masterFile;
         DerivativeFile := derivativeFile |}).

(** [ariesLookup] will query the index for information on the supplied
    identifier *)
Definition ariesLookup (passedID : string) : handler Empty_set :=
  '(qs, urlStr, resp) ← search passedID;
  respond passedID qs urlStr resp.

(** *** Naming what a request observes *)

Definition primaryURL (passedID : string) : string :=
  selectURL (primaryQuery passedID) lookupFields.

Definition fallbackURL (passedID : string) : string :=
  selectURL (fallbackQuery passedID) lookupFields.

Definition derivedURL (docID : string) : string :=
  selectURL (derivedQuery docID) derivedFields.

(** The URL of a service descriptor for the query [qs]. *)
Definition queryURL (qs : string) : string :=
  solrURL +:+ "/" +:+ solrCore +:+ "/select?q=" +:+ qs.

Definition pingURL : string :=
  solrURL +:+ "/" +:+ solrCore +:+ "/select?q=*:*&wt=json&rows=0".

(** [found passedID qs urlStr resp tr]: the query [qs], sent as [urlStr],
    is the one that found something for [passedID]: its answer decodes to
    [resp], whose count is not zero; [tr] is the requests made.  The first
    request has to succeed; of the second one only the string returned
    matters, as in the source. *)
Inductive found (passedID : string)
  : string -> string -> solrFullResponse -> list string -> Prop :=
| found_by_id respStr r0 :
    getAPIResponse (primaryURL passedID) = (respStr, None) ->
    Unmarshal respStr zeroResponse = (r0, None) ->
    NumFound (Response r0) <> 0 ->
    found passedID (primaryQuery passedID) (primaryURL passedID) r0
      [primaryURL passedID]
| found_by_alternate respStr r0 respStr1 e1 r1 :
    getAPIResponse (primaryURL passedID) = (respStr, None) ->
    Unmarshal respStr zeroResponse = (r0, None) ->
    NumFound (Response r0) = 0 ->
    getAPIResponse (fallbackURL passedID) = (respStr1, e1) ->
    Unmarshal respStr1 r0 = (r1, None) ->
    NumFound (Response r1) <> 0 ->
    found passedID (fallbackQuery passedID) (fallbackURL passedID) r1
      [primaryURL passedID; fallbackURL passedID].

(** Exactly one record matches: the count is one and [doc] is the record
    listed. *)
Definition exactlyOne (resp : solrFullResponse) (doc : solrDoc) : Prop :=
  NumFound (Response resp) = 1 /\ Docs (Response resp) = [doc].

(** What the first part can do, in full. *)
Inductive searchResult (passedID : string)
  : (string * string * solrFullResponse + reply) * list string -> Prop :=
| search_failed e :
    searchResult passedID (inr (RString 404 e), [primaryURL passedID])
| search_none tr :
    tr = [primaryURL passedID] \/
    tr = [primaryURL passedID; fallbackURL passedID] ->
    searchResult passedID (inr (RString 404 (passedID +:+ " not found")), tr)
| search_some qs urlStr resp tr :
    found passedID qs urlStr resp tr ->
    searchResult passedID (inl (qs, urlStr, resp), tr).

(** What the second part can do, in full. *)
Inductive respondResult (passedID qs urlStr : string) (resp : solrFullResponse)
    (tr : list string) : reply * list string -> Prop :=
| respond_many :
    1 < NumFound (Response resp) ->
    respondResult passedID qs urlStr resp tr
      (RString 400 (passedID +:+ " has too many hits. Query: " +:+ urlStr), tr)
| respond_panic :
    NumFound (Response resp) <= 1 ->
    (forall doc rest, Docs (Response resp) = doc :: rest -> ~ classified doc) ->
    respondResult passedID qs urlStr resp tr (RPanic, tr)
| respond_record doc rest out tr' :
    NumFound (Response resp) <= 1 ->
    Docs (Response resp) = doc :: rest ->
    classified doc ->
    Identifiers out = ID doc :: IdentifierSSIM doc ->
    ServiceURL out = [{| URL := queryURL qs; Protocol := "avalon-index" |}] ->
    MasterFile out = masterFileOf doc ->
    tr' = tr \/ tr' = tr ++ [derivedURL (ID doc)] ->
    respondResult passedID qs urlStr resp tr (RJSON 200 out, tr').

End Service.

(** ** encoding/json: an executable [json.Unmarshal] for [solrFullResponse]

    The theorems below hold for every behaviour of [json.Unmarshal]; the
    decoder of this module is the one the examples run.  It follows
    encoding/json (v1): the whole input is checked first, and a syntax
    error leaves the target untouched; an object is decoded into a struct
    key by key, keys are matched with the field tags ignoring ASCII case,
    unknown keys are skipped and fields without a key keep their value;
    [null] clears a slice and leaves an [int], a [string] or a struct
    alone; a value of the wrong kind is skipped and the first such error
    is returned once decoding is over; the elements of an array are
    decoded over the elements the slice already holds at the same index.
    Not covered: [\u] escapes in strings, which are a syntax error here;
    the folding of key characters outside ASCII; the replacement of
    invalid UTF-8 in strings, which are kept byte for byte here; and the
    reuse of the slice's backing array beyond its length, where an element
    that comes back is a zero value here. *)
Module GoJSON.

Inductive json :=
| JNull
| JBool (b : bool)
| JNumber (literal : string)
| JString (s : string)
| JArray (items : list json)
| JObject (members : list (string * json)).

Definition isSpace (c : ascii) : bool :=
  let n := N_of_ascii c in
  ((n =? 32) || (n =? 9) || (n =? 10) || (n =? 13))%N.

Definition isDigit (c : ascii) : bool :=
  let n := N_of_ascii c in ((48 <=? n) && (n <=? 57))%N.

Fixpoint skipSpace (s : string) : string :=
  match s with
  | String c s' => if isSpace c then skipSpace s' else s
  | EmptyString => s
  end.

Fixpoint spanDigits (s : string) : string * string :=
  match s with
  | String c s' =>
      if isDigit c then let '(ds, r) := spanDigits s' in (String c ds, r)
      else (EmptyString, s)
  | EmptyString => (EmptyString, s)
  end.

(** The characters of a string literal after its opening quote. *)
Fixpoint scanString (s : string) : option (string * string) :=
  match s with
  | EmptyString => None
  | String c s' =>
      if (N_of_ascii c =? 34)%N then Some (EmptyString, s')
      else if (N_of_ascii c <? 32)%N then None
      else if (N_of_ascii c =? 92)%N then
        match s' with
        | String e s'' =>
            let n := N_of_ascii e in
            let unescaped :=
              if (n =? 34)%N then Some e
              else if (n =? 92)%N then Some e
              else if (n =? 47)%N then Some e
              else if (n =? 98)%N then Some (ascii_of_nat 8)
              else if (n =? 102)%N then Some (ascii_of_nat 12)
              else if (n =? 110)%N then Some (ascii_of_nat 10)
              else if (n =? 114)%N then Some (ascii_of_nat 13)
              else if (n =? 116)%N then Some (ascii_of_nat 9)
              else None in
            match unescaped, scanString s'' with
            | Some u, Some (t, r) => Some (String u t, r)
            | _, _ => None
            end
        | EmptyString => None
        end
      else
        match scanString s' with
        | Some (t, r) => Some (String c t, r)
        | None => None
        end
  end.

(** A number literal: an optional minus sign, an integer part without
    leading zero, an optional fraction and an optional exponent. *)
Definition scanNumber (s : string) : option (string * string) :=
  let '(sign, s1) :=
    match s with
    | String "-" r => ("-", r)
    | _ => ("", s)
    end in
  let '(int, s2) := spanDigits s1 in
  match int with
  | EmptyString => None
  | String "0" (String _ _) => None
  | _ =>
      let frac :=
        match s2 with
        | String "." r =>
            let '(ds, r') := spanDigits r in
            match ds with
            | EmptyString => None
            | _ => Some ("." +:+ ds, r')
            end
        | _ => Some ("", s2)
        end in
      match frac with
      | None => None
      | Some (f, s3) =>
          let exp :=
            match s3 with
            | String e r =>
                if (N_of_ascii e =? 101)%N || (N_of_ascii e =? 69)%N then
                  let '(sg, r1) :=
                    match r with
                    | String "+" r1 => ("+", r1)
                    | String "-" r1 => ("-", r1)
                    | _ => ("", r)
                    end in
                  let '(ds, r2) := spanDigits r1 in
                  match ds with
                  | EmptyString => None
                  | _ => Some (String e (sg +:+ ds), r2)
                  end
                else Some ("", s3)
            | EmptyString => Some ("", s3)
            end in
          match exp with
          | None => None
          | Some (x, s4) => Some (sign +:+ int +:+ f +:+ x, s4)
          end
      end
  end.

Definition stripPrefix (p s : string) : option string :=
  if String.prefix p s
  then Some (String.substring (String.length p)
               (String.length s - String.length p) s)
  else None.

(** The elements of an array after the first one has been announced. *)
Fixpoint parseItems (value : string -> option (json * string)) (n : nat)
    (s : string) : option (list json * string) :=
  match n with
  | O => None
  | S n' =>
      match value s with
      | Some (v, r) =>
          match skipSpace r with
          | String "," r' =>
              match parseItems value n' r' with
              | Some (vs, r'') => Some (v :: vs, r'')
              | None => None
              end
          | String "]" r' => Some ([v], r')
          | _ => None
          end
      | None => None
      end
  end.

Fixpoint parseMembers (value : string -> option (json * string)) (n : nat)
    (s : string) : option (list (string * json) * string) :=
  match n with
  | O => None
  | S n' =>
      match skipSpace s with
      | String q r0 =>
          if (N_of_ascii q =? 34)%N then
            match scanString r0 with
            | Some (k, r1) =>
                match skipSpace r1 with
                | String ":" r2 =>
                    match value r2 with
                    | Some (v, r3) =>
                        match skipSpace r3 with
                        | String "," r4 =>
                            match parseMembers value n' r4 with
                            | Some (ms, r5) => Some ((k, v) :: ms, r5)
                            | None => None
                            end
                        | String "}" r4 => Some ([(k, v)], r4)
                        | _ => None
                        end
                    | None => None
                    end
                | _ => None
                end
            | None => None
            end
          else None
      | EmptyString => None
      end
  end.

Fixpoint parseValue (fuel : nat) (s : string) : option (json * string) :=
  match fuel with
  | O => None
  | S fuel' =>
      match skipSpace s with
      | EmptyString => None
      | String c r =>
          let n := N_of_ascii c in
          if (n =? 123)%N then
            match skipSpace r with
            | String "}" r' => Some (JObject [], r')
            | _ =>
                match parseMembers (parseValue fuel') fuel' r with
                | Some (ms, r') => Some (JObject ms, r')
                | None => None
                end
            end
          else if (n =? 91)%N then
            match skipSpace r with
            | String "]" r' => Some (JArray [], r')
            | _ =>
                match parseItems (parseValue fuel') fuel' r with
                | Some (vs, r') => Some (JArray vs, r')
                | None => None
                end
            end
          else if (n =? 34)%N then
            match scanString r with
            | Some (t, r') => Some (JString t, r')
            | None => None
            end
          else if (n =? 45)%N || isDigit c then
            match scanNumber (String c r) with
            | Some (lit, r') => Some (JNumber lit, r')
            | None => None
            end
          else
            match stripPrefix "true" (String c r),
                  stripPrefix "false" (String c r),
                  stripPrefix "null" (String c r) with
            | Some r', _, _ => Some (JBool true, r')
            | _, Some r', _ => Some (JBool false, r')
            | _, _, Some r' => Some (JNull, r')
            | _, _, _ => None
            end
      end
  end.

(** A whole input: one value, then only white space. *)
Definition parse (data : string) : option json :=
  match parseValue (S (String.length data)) data with
  | Some (v, r) =>
      match skipSpace r with
      | EmptyString => Some v
      | _ => None
      end
  | None => None
  end.

(** *** Decoding into the Go values *)

Definition typeError : string := "json: cannot unmarshal value into Go value".

(** Only the first error is kept. *)
Definition firstError (e1 e2 : option string) : option string :=
  match e1 with
  | Some _ => e1
  | None => e2
  end.

Definition lower (c : ascii) : ascii :=
  let n := N_of_ascii c in
  if ((65 <=? n) && (n <=? 90))%N then ascii_of_N (n + 32) else c.

Fixpoint equalFold (a b : string) : bool :=
  match a, b with
  | EmptyString, EmptyString => true
  | String x a', String y b' => Ascii.eqb (lower x) (lower y) && equalFold a' b'
  | _, _ => false
  end.

Fixpoint digitsValue (acc : Z) (ds : string) : Z :=
  match ds with
  | EmptyString => acc
  | String c ds' => digitsValue (10 * acc + Z.of_N (N_of_ascii c) - 48) ds'
  end.

(** The value of a literal for a field of type [int] (64 bits): digits
    only, in range. *)
Definition intOfLiteral (lit : string) : option Z :=
  let '(neg, body) :=
    match lit with
    | String "-" r => (true, r)
    | _ => (false, lit)
    end in
  match spanDigits body with
  | (String _ _ as ds, EmptyString) =>
      let z := if neg then - digitsValue 0 ds else digitsValue 0 ds in
      if (- 2 ^ 63 <=? z) && (z <=? 2 ^ 63 - 1) then Some z else None
  | _ => None
  end.

Definition decodeInt (v : json) (old : Z) : Z * option string :=
  match v with
  | JNull => (old, None)
  | JNumber lit =>
      match intOfLiteral lit with
      | Some z => (z, None)
      | None => (old, Some typeError)
      end
  | _ => (old, Some typeError)
  end.

Definition decodeString (v : json) (old : string) : string * option string :=
  match v with
  | JNull => (old, None)
  | JString s => (s, None)
  | _ => (old, Some typeError)
  end.

Fixpoint decodeElems {A} (elem : json -> A -> A * option string) (zero : A)
    (items : list json) (old : list A) : list A * option string :=
  match items with
  | [] => ([], None)
  | v :: items' =>
      let '(o, old') :=
        match old with
        | x :: r => (x, r)
        | [] => (zero, [])
        end in
      let '(a, e1) := elem v o in
      let '(l, e2) := decodeElems elem zero items' old' in
      (a :: l, firstError e1 e2)
  end.

Definition decodeSlice {A} (elem : json -> A -> A * option string) (zero : A)
    (v : json) (old : list A) : list A * option string :=
  match v with
  | JNull => ([], None)
  | JArray items => decodeElems elem zero items old
  | _ => (old, Some typeError)
  end.

Definition decodeStruct {A} (field : string -> json -> A -> A * option string)
    (v : json) (old : A) : A * option string :=
  match v with
  | JNull => (old, None)
  | JObject members =>
      fold_left
        (fun (acc : A * option string) (m : string * json) =>
           let '(a, e) := field (fst m) (snd m) (fst acc) in
           (a, firstError (snd acc) e))
        members (old, None)
  | _ => (old, Some typeError)
  end.

Definition docField (key : string) (v : json) (d : solrDoc)
  : solrDoc * option string :=
  if equalFold key "id" then
    let '(x, e) := decodeString v (ID d) in
    ({| ID := x; Model := Model d; PartOf := PartOf d;
        FileLocation := FileLocation d; IdentifierSSIM := IdentifierSSIM d;
        derivativeFile_ssi := derivativeFile_ssi d |}, e)
  else if equalFold key "has_model_ssim" then
    let '(x, e) := decodeSlice decodeString "" v (Model d) in
    ({| ID := ID d; Model := x; PartOf := PartOf d;
        FileLocation := FileLocation d; IdentifierSSIM := IdentifierSSIM d;
        derivativeFile_ssi := derivativeFile_ssi d |}, e)
  else if equalFold key "isPartOf_ssim" then
    let '(x, e) := decodeSlice decodeString "" v (PartOf d) in
    ({| ID := ID d; Model := Model d; PartOf := x;
        FileLocation := FileLocation d; IdentifierSSIM := IdentifierSSIM d;
        derivativeFile_ssi := derivativeFile_ssi d |}, e)
  else if equalFold key "file_location_ssi" then
    let '(x, e) := decodeString v (FileLocation d) in
    ({| ID := ID d; Model := Model d; PartOf := PartOf d;
        FileLocation := x; IdentifierSSIM := IdentifierSSIM d;
        derivativeFile_ssi := derivativeFile_ssi d |}, e)
  else if equalFold key "identifier_ssim" then
    let '(x, e) := decodeSlice decodeString "" v (IdentifierSSIM d) in
    ({| ID := ID d; Model := Model d; PartOf := PartOf d;
        FileLocation := FileLocation d; IdentifierSSIM := x;
        derivativeFile_ssi := derivativeFile_ssi d |}, e)
  else if equalFold key "derivativeFile_ssi" then
    let '(x, e) := decodeString v (derivativeFile_ssi d) in
    ({| ID := ID d; Model := Model d; PartOf := PartOf d;
        FileLocation := FileLocation d; IdentifierSSIM := IdentifierSSIM d;
        derivativeFile_ssi := x |}, e)
  else (d, None).

Definition zeroDoc : solrDoc :=
  {| ID := ""; Model := []; PartOf := []; FileLocation := "";
     IdentifierSSIM := []; derivativeFile_ssi := "" |}.

Definition headerField (key : string) (v : json) (h : solrHeader)
  : solrHeader * option string :=
  if equalFold key "status" then
    let '(x, e) := decodeInt v (Status h) in
    ({| Status := x; QTime := QTime h |}, e)
  else if equalFold key "QTime" then
    let '(x, e) := decodeInt v (QTime h) in
    ({| Status := Status h; QTime := x |}, e)
  else (h, None).

Definition responseField (key : string) (v : json) (r : solrResponse)
  : solrResponse * option string :=
  if equalFold key "numFound" then
    let '(x, e) := decodeInt v (NumFound r) in
    ({| NumFound := x; Start := Start r; Docs := Docs r |}, e)
  else if equalFold key "start" then
    let '(x, e) := decodeInt v (Start r) in
    ({| NumFound := NumFound r; Start := x; Docs := Docs r |}, e)
  else if equalFold key "docs" then
    let '(x, e) := decodeSlice (decodeStruct docField) zeroDoc v (Docs r) in
    ({| NumFound := NumFound r; Start := Start r; Docs := x |}, e)
  else (r, None).

Definition fullResponseField (key : string) (v : json) (f : solrFullResponse)
  : solrFullResponse * option string :=
  if equalFold key "responseHeader" then
    let '(x, e) := decodeStruct headerField v (ResponseHeader f) in
    ({| ResponseHeader := x; Response := Response f |}, e)
  else if equalFold key "response" then
    let '(x, e) := decodeStruct responseField v (Response f) in
    ({| ResponseHeader := ResponseHeader f; Response := x |}, e)
  else (f, None).

(** [json.Unmarshal(data, &resp)] *)
Definition Unmarshal (data : string) (resp : solrFullResponse)
  : solrFullResponse * option string :=
  match parse data with
  | None => (resp, Some "json: syntax error")
  | Some v => decodeStruct fullResponseField v resp
  end.

(** Test bodies are written with ['] where JSON has a double quote. *)
Fixpoint quoted (s : string) : string :=
  match s with
  | EmptyString => EmptyString
  | String c s' =>
      String (if (N_of_ascii c =? 39)%N then ascii_of_nat 34 else c)
        (quoted s')
  end.

End GoJSON.

(** ** Concrete indexes *)
Module Examples.

Definition solr : string := "http://solr:8983/solr".
Definition core : string := "avalon".
Definition avalon : string := "http://avalon.example.org".

(** An index given by the answers it has; any other request is refused. *)
Definition serve (answers : list (string * httpResult)) (url : string)
  : httpResult :=
  match find (fun e => String.eqb (fst e) url) answers with
  | Some e => snd e
  | None => GetError "dial tcp 127.0.0.1:8983: connect: connection refused"
  end.

Definition ok (body : string) : httpResult :=
  GetResponse 200 (GoJSON.quoted body).

Definition noHits : string :=
  "{'responseHeader':{'status':0,'QTime':1},
    'response':{'numFound':0,'start':0,'docs':[]}}".

(** A MediaObject found by its id. *)
Definition containerIndex : string -> httpResult :=
  serve
    [(primaryURL solr core "abc123",
      ok "{'responseHeader':{'status':0,'QTime':2},
           'response':{'numFound':1,'start':0,'docs':[
             {'id':'abc123','has_model_ssim':['MediaObject']}]}}")].

(** A MasterFile found by an alternate identifier, with three records
    derived from it, one of them without a file. *)
Definition memberIndex : string -> httpResult :=
  serve
    [(primaryURL solr core "alt-7", ok noHits);
     (fallbackURL solr core "alt-7",
      ok "{'responseHeader':{'status':0,'QTime':3},
           'response':{'numFound':1,'start':0,'docs':[
             {'id':'mf1','has_model_ssim':['MasterFile'],
              'isPartOf_ssim':['mo9'],'identifier_ssim':['alt-7','tape 12'],
              'file_location_ssi':'/masters/mf1.mov'}]}}");
     (derivedURL solr core "mf1",
      ok "{'responseHeader':{'status':0,'QTime':1},
           'response':{'numFound':3,'start':0,'docs':[
             {'id':'d1','derivativeFile_ssi':'/derivatives/high.mp4'},
             {'id':'d2'},
             {'id':'d3','derivativeFile_ssi':'/derivatives/low.mp4'}]}}")].

(** The same MasterFile when the query for derivatives is refused. *)
Definition memberIndexNoDerived : string -> httpResult :=
  serve
    [(primaryURL solr core "mf1",
      ok "{'response':{'numFound':1,'start':0,'docs':[
             {'id':'mf1','has_model_ssim':['MasterFile'],
              'isPartOf_ssim':['mo9']}]}}")].

(** The same MasterFile when the query for derivatives is answered with
    something that is not JSON. *)
Definition memberIndexBadDerived : string -> httpResult :=
  serve
    [(primaryURL solr core "mf1",
      ok "{'response':{'numFound':1,'start':0,'docs':[
             {'id':'mf1','has_model_ssim':['MasterFile'],
              'isPartOf_ssim':['mo9']}]}}");
     (derivedURL solr core "mf1", GetResponse 200 "<html>busy</html>")].


(** Nothing is known under the identifier. *)
Definition emptyIndex : string -> httpResult :=
  serve
    [(primaryURL solr core "nope", ok noHits);
     (fallbackURL solr core "nope", ok noHits)].

(** The index answers every request with an error page. *)
Definition brokenIndex : string -> httpResult :=
  fun _ => GetResponse 500 "Server Error: SolrCore is loading".

(** The index cannot be reached; the text is the one of Go's [url.Error]. *)
Definition unreachableIndex : string -> httpResult :=
  fun url =>
    GetError ("Get " +:+ dq +:+ url +:+ dq
                +:+ ": dial tcp 127.0.0.1:8983: connect: connection refused").

(** The index answers the query by id with a page that is not JSON. *)
Definition garbledIndex : string -> httpResult :=
  fun _ => GetResponse 200 "<html>maintenance</html>".

(** The index answers without content. *)
Definition noContentIndex : string -> httpResult :=
  fun _ => GetResponse 204 "".

(** A Derivative record: it has a model and no [isPartOf_ssim]. *)
Definition derivativeIndex : string -> httpResult :=
  serve
    [(primaryURL solr core "d1",
      ok "{'response':{'numFound':1,'start':0,'docs':[
             {'id':'d1','has_model_ssim':['Derivative']}]}}")].

(** A record without [has_model_ssim]. *)
Definition modellessIndex : string -> httpResult :=
  serve
    [(primaryURL solr core "x1",
      ok "{'response':{'numFound':1,'start':0,'docs':[{'id':'x1'}]}}")].

(** The records these indexes hold. *)
Definition containerDoc : solrDoc :=
  {| ID := "abc123"; Model := ["MediaObject"]; PartOf := [];
     FileLocation := ""; IdentifierSSIM := []; derivativeFile_ssi := "" |}.

Definition memberDoc : solrDoc :=
  {| ID := "mf1"; Model := ["MasterFile"]; PartOf := ["mo9"];
     FileLocation := "/masters/mf1.mov";
     IdentifierSSIM := ["alt-7"; "tape 12"]; derivativeFile_ssi := "" |}.

Definition bareMemberDoc : solrDoc :=
  {| ID := "mf1"; Model := ["MasterFile"]; PartOf := ["mo9"];
     FileLocation := ""; IdentifierSSIM := []; derivativeFile_ssi := "" |}.

Definition lookup (index : string -> httpResult) (passedID : string)
  : reply * list string :=
  run (ariesLookup solr core avalon index GoJSON.Unmarshal passedID).

Definition health (index : string -> httpResult) : reply * list string :=
  run (healthCheckHandler solr core index).

(** The result in a reply, the empty one when there is none. *)
Definition resultOf (r : reply * list string) : aries :=
  match fst r with
  | RJSON _ out => out
  | _ =>
      {| Identifiers := []; ServiceURL := []; AccessURL := []; AdminURL := [];
         MetadataURL := []; MasterFile := []; DerivativeFile := [] |}
  end.

(** The string handed to the decoder for a request, and what it decodes
    to. *)
Definition bodyOf (index : string -> httpResult) (url : string) : string :=
  fst (getAPIResponse index url).

Definition decodedOf (index : string -> httpResult) (url : string)
    (prev : solrFullResponse) : solrFullResponse :=
  fst (GoJSON.Unmarshal (bodyOf index url) prev).

End Examples.

(** ** The rest of main.go *)

(** [hasValue] *)
Fixpoint hasValue (values : list string) (tgtVal : string) : bool :=
  match values with
  | [] => false
  | val :: rest =>
      if String.eqb val tgtVal then true else hasValue rest tgtVal
  end.

(** [strings.Join] *)
Fixpoint Join (elems : list string) (sep : string) : string :=
  match elems with
  | [] => EmptyString
  | [x] => x
  | x :: rest => x +:+ sep +:+ Join rest sep
  end.

(** The characters [url.QueryEscape] lets through or produces: letters,
    digits, [-], [_], [.], [~], and its own [+] and [%]. *)
Definition queryChar (c : ascii) : bool :=
  let n := N_of_ascii c in
  ((97 <=? n) && (n <=? 122) || (65 <=? n) && (n <=? 90)
   || (48 <=? n) && (n <=? 57)
   || (n =? 45) || (n =? 95) || (n =? 46) || (n =? 126)
   || (n =? 43) || (n =? 37))%N.

Fixpoint allChars (p : ascii -> bool) (s : string) : bool :=
  match s with
  | EmptyString => true
  | String c s' => p c && allChars p s'
  end.

(** The first revision of the lookup in main.go: one query over three
    fields, and a result that is never filled in.  Its [aries] has four
    lists and its [solrResponse] no [Docs]; the types of the later
    revision are used, with the other fields left as they are. *)
Module FirstRevision.

Definition lookupFields : string :=
  "&fl=id,shadowed_location_facet,marc_display,alternate_id_facet,barcode_facet,feature_facet".

(** The three clauses [qps] of the query. *)
Definition clauses (passedID : string) : list string :=
  let qps := [] in
  let qps := qps ++ [QueryEscape ("id:" +:+ dq +:+ passedID +:+ dq)] in
  let qps :=
    qps ++ [QueryEscape ("alternate_id_facet:" +:+ dq +:+ passedID +:+ dq)] in
  let qps :=
    qps ++ [QueryEscape ("barcode_facet:" +:+ dq +:+ passedID +:+ dq)] in
  qps.

(** [var out aries] *)
Definition zeroAries : aries :=
  {| Identifiers := []; ServiceURL := []; AccessURL := []; AdminURL := [];
     MetadataURL := []; MasterFile := []; DerivativeFile := [] |}.

Section Service.

Variable solrURL : string.
Variable solrCore : string.
Variable clientGet : string -> httpResult.
Variable Unmarshal :
  string -> solrFullResponse -> solrFullResponse * option string.

Definition lookupURL (passedID : string) : string :=
  selectURL solrURL solrCore (Join (clauses passedID) "+") lookupFields.

(** [ariesLookup] *)
Definition ariesLookup (passedID : string) : handler Empty_set :=
  let urlStr := lookupURL passedID in
  '(respStr, err) ← call (getAPIResponse clientGet) urlStr;
  match err with
  | Some e => finish (RString 404 e)
  | None =>
  let '(resp, marshallErr) := Unmarshal respStr zeroResponse in
  match marshallErr with
  | Some _ => finish (RString 404 (passedID +:+ " not found"))
  | None =>
  if negb (Status (ResponseHeader resp) =? 0)%Z then
    finish (RString 404 (passedID +:+ " not found"))
  else if (NumFound (Response resp) =? 0)%Z then
    finish (RString 404 (passedID +:+ " not found"))
  else
    let out := zeroAries in
    finish (RJSON 200 out)
  end end.

End Service.

End FirstRevision.

(** The result for a MediaObject. *)
Definition containerResult (solrURL solrCore avalonURL qs : string)
    (doc : solrDoc) : aries :=
  {| Identifiers := ID doc :: IdentifierSSIM doc;
     ServiceURL := [{| URL := queryURL solrURL solrCore qs; Protocol := "avalon-index" |}];
     AccessURL := [avalonURL +:+ "/media_objects/" +:+ ID doc];
     AdminURL := [avalonURL +:+ "/media_objects/" +:+ ID doc +:+ "/edit"];
     MetadataURL :=
       [avalonURL +:+ "/media_objects/" +:+ ID doc +:+ "/content/descMetadata"];
     MasterFile := masterFileOf doc;
     DerivativeFile := [] |}.

(** The result for any other record, under its first parent. *)
Definition memberResult (solrURL solrCore avalonURL qs : string)
    (doc : solrDoc) (partOf0 : string) (derivatives : list string) : aries :=
  {| Identifiers := ID doc :: IdentifierSSIM doc;
     ServiceURL := [{| URL := queryURL solrURL solrCore qs; Protocol := "avalon-index" |}];
     AccessURL :=
       [avalonURL +:+ "/media_objects/" +:+ partOf0 +:+ "/section/" +:+ ID doc];
     AdminURL :=
       [avalonURL +:+ "/media_objects/" +:+ partOf0 +:+ "/section/" +:+ ID doc
          +:+ "/edit"];
     MetadataURL := [];
     MasterFile := masterFileOf doc;
     DerivativeFile := derivatives |}.

(** ** More concrete indexes *)
Module MoreExamples.

Import Examples.

(** Solr answers with an error in its header and a count. *)
Definition headerErrorIndex : string -> httpResult :=
  fun _ =>
    ok "{'responseHeader':{'status':400,'QTime':0},
         'response':{'numFound':3,'start':0}}".

(** Solr answers with one hit. *)
Definition oneHitIndex : string -> httpResult :=
  fun _ =>
    ok "{'responseHeader':{'status':0,'QTime':0},
         'response':{'numFound':1,'start':0}}".

(** An index that reports a count below zero with a MediaObject. *)
Definition negativeCountIndex : string -> httpResult :=
  serve
    [(primaryURL solr core "abc123",
      ok "{'response':{'numFound':-1,'start':0,'docs':[
             {'id':'abc123','has_model_ssim':['MediaObject']},
             {'id':'other','has_model_ssim':['MediaObject']}]}}")].

(** An index that reports one hit and lists no record. *)
Definition noDocsIndex : string -> httpResult :=
  serve
    [(primaryURL solr core "abc123",
      ok "{'response':{'numFound':1,'start':0,'docs':[]}}")].

(** The first revision, run with the decoder of the later types: the two
    agree on every answer but one whose [docs] is not an array of
    records, a key the first revision's [solrResponse] does not have and
    so skips. *)
Definition lookup1 (index : string -> httpResult) (passedID : string)
  : reply * list string :=
  run (FirstRevision.ariesLookup solr core index GoJSON.Unmarshal passedID).

(** A Derivative record that carries the identifier asked for among its
    alternate identifiers: the query by id finds nothing, the query by
    alternate identifier finds this one record. *)
Definition derivativeByAlternateIndex : string -> httpResult :=
  serve
    [(primaryURL solr core "alt-9", ok noHits);
     (fallbackURL solr core "alt-9",
      ok "{'responseHeader':{'status':0,'QTime':1},
           'response':{'numFound':1,'start':0,'docs':[
             {'id':'d1','has_model_ssim':['Derivative'],
              'identifier_ssim':['alt-9']}]}}")].

Definition derivativeDoc : solrDoc :=
  {| ID := "d1"; Model := ["Derivative"]; PartOf := [];
     FileLocation := ""; IdentifierSSIM := ["alt-9"];
     derivativeFile_ssi := "" |}.




End MoreExamples.

(** * Properties *)

(** ** Strings and loops *)

Lemma append_cons (c : ascii) (a b : string) :
  String c a +:+ b = String c (a +:+ b).
Proof. reflexivity. Qed.

Lemma append_nil (b : string) : "" +:+ b = b.
Proof. reflexivity. Qed.

Lemma length_append (a b : string) :
  String.length (a +:+ b) = (String.length a + String.length b)%nat.
Proof.
  induction a as [|c a IH]; [reflexivity |].
  rewrite append_cons. cbn. now rewrite IH.
Qed.

Lemma append_assoc (a b c : string) : (a +:+ b) +:+ c = a +:+ (b +:+ c).
Proof.
  induction a as [|x a IH]; [reflexivity |].
  rewrite !append_cons. now rewrite IH.
Qed.


Lemma append_inv_head (a b c : string) : a +:+ b = a +:+ c -> b = c.
Proof.
  induction a as [|x a IH]; [now rewrite !append_nil |].
  rewrite !append_cons. intros H. injection H as H. now apply IH.
Qed.

Lemma contains_length (s sub : string) :
  contains s sub -> (String.length sub <= String.length s)%nat.
Proof.
  intros (pre & post & ->). rewrite !length_append. lia.
Qed.



Lemma hasPrefix_spec (s p : string) :
  hasPrefix s p = true <-> exists post, s = p +:+ post.
Proof.
  revert s. induction p as [|x p IH]; intros s; cbn.
  - split; [intros _; now exists s | reflexivity].
  - destruct s as [|y s].
    + split; [discriminate | intros (post & H); discriminate].
    + rewrite andb_true_iff, IH. split.
      * intros (Hxy & post & ->). apply Ascii.eqb_eq in Hxy as ->.
        now exists post.
      * intros (post & H). rewrite append_cons in H. injection H as -> ->.
        split; [apply Ascii.eqb_refl | now exists post].
Qed.

Lemma containsb_spec (s sub : string) :
  containsb s sub = true <-> contains s sub.
Proof.
  induction s as [|c s IH]; cbn.
  - rewrite orb_false_r, hasPrefix_spec. split.
    + intros (post & H). now exists "", post.
    + intros (pre & post & H). destruct pre; [| discriminate].
      now exists post.
  - rewrite orb_true_iff, hasPrefix_spec, IH. split.
    + intros [(post & ->) | (pre & post & ->)].
      * now exists "", post.
      * now exists (String c pre), post.
    + intros (pre & post & H). destruct pre as [|x pre].
      * left. now exists post.
      * right. rewrite append_cons in H. injection H as -> ->.
        now exists pre, post.
Qed.

Lemma QueryEscape_app (a b : string) :
  QueryEscape (a +:+ b) = QueryEscape a +:+ QueryEscape b.
Proof.
  induction a as [|c a IH]; [reflexivity |].
  rewrite append_cons. cbn [QueryEscape]. rewrite IH.
  destruct (shouldEscape c); [destruct (N.eqb _ _) |]; reflexivity.
Qed.

Lemma QueryEscape_length (s : string) :
  (String.length s <= String.length (QueryEscape s))%nat.
Proof.
  induction s as [|c s IH]; cbn [QueryEscape]; [lia |].
  destruct (shouldEscape c); [destruct (N.eqb _ _) |]; cbn; lia.
Qed.

Lemma appendAll_app (acc xs : list string) : appendAll acc xs = acc ++ xs.
Proof.
  unfold appendAll. revert acc.
  induction xs as [|x xs IH]; intros acc; cbn.
  - now rewrite app_nil_r.
  - rewrite IH, <- app_assoc. reflexivity.
Qed.

Lemma appendDerivatives_filter (acc : list string) (docs : list solrDoc) :
  appendDerivatives acc docs
  = acc ++ map derivativeFile_ssi (List.filter nonEmptyDerivative docs).
Proof.
  unfold appendDerivatives. revert acc.
  induction docs as [|d docs IH]; intros acc; cbn [fold_left].
  - cbn. now rewrite app_nil_r.
  - rewrite IH. cbn [List.filter]. unfold nonEmptyDerivative at 2.
    destruct (negb _); cbn [map]; [now rewrite <- app_assoc | reflexivity].
Qed.

(** ** The URLs requested *)

Lemma QueryEscape_id : QueryEscape "id:" = "id%3A".
Proof. reflexivity. Qed.

Lemma QueryEscape_identifier : QueryEscape "identifier_ssim:" = "identifier_ssim%3A".
Proof. reflexivity. Qed.

Lemma QueryEscape_derivation :
  QueryEscape "isDerivationOf_ssim:" = "isDerivationOf_ssim%3A".
Proof. reflexivity. Qed.

Lemma QueryEscape_dq : QueryEscape dq = "%22".
Proof. reflexivity. Qed.

Lemma primaryQuery_eq (i : string) :
  primaryQuery i = "id%3A%22" +:+ QueryEscape i +:+ "%22".
Proof.
  unfold primaryQuery.
  now rewrite !QueryEscape_app, QueryEscape_id, QueryEscape_dq.
Qed.

Lemma fallbackQuery_eq (i : string) :
  fallbackQuery i = "identifier_ssim%3A%22" +:+ QueryEscape i +:+ "%22".
Proof.
  unfold fallbackQuery.
  now rewrite !QueryEscape_app, QueryEscape_identifier, QueryEscape_dq.
Qed.

Lemma derivedQuery_eq (i : string) :
  derivedQuery i = "isDerivationOf_ssim%3A%22" +:+ QueryEscape i +:+ "%22".
Proof.
  unfold derivedQuery.
  now rewrite !QueryEscape_app, QueryEscape_derivation, QueryEscape_dq.
Qed.

Lemma primaryQuery_fallbackQuery (i j : string) :
  primaryQuery i <> fallbackQuery j.
Proof. rewrite primaryQuery_eq, fallbackQuery_eq. discriminate. Qed.

Lemma primaryQuery_derivedQuery (i j : string) :
  primaryQuery i <> derivedQuery j.
Proof. rewrite primaryQuery_eq, derivedQuery_eq. discriminate. Qed.

Lemma fallbackQuery_derivedQuery (i j : string) :
  fallbackQuery i <> derivedQuery j.
Proof. rewrite fallbackQuery_eq, derivedQuery_eq. discriminate. Qed.

Lemma primaryQuery_length (i : string) :
  (String.length i + 11 <= String.length (primaryQuery i))%nat.
Proof.
  rewrite primaryQuery_eq, !length_append.
  pose proof (QueryEscape_length i). cbn. lia.
Qed.

(** A URL made by [selectURL] determines its query up to what follows. *)
Lemma selectURL_inj (a b qs qs' fl fl' : string) :
  selectURL a b qs fl = selectURL a b qs' fl' ->
  qs +:+ "&wt=json&indent=true" +:+ fl = qs' +:+ "&wt=json&indent=true" +:+ fl'.
Proof.
  unfold selectURL. intros H.
  now do 4 apply append_inv_head in H.
Qed.

Lemma selectURL_queryURL (a b qs fl : string) :
  selectURL a b qs fl = queryURL a b qs +:+ "&wt=json&indent=true" +:+ fl.
Proof. unfold selectURL, queryURL. now rewrite !append_assoc. Qed.

Lemma selectURL_contains (a b qs fl : string) :
  contains (selectURL a b qs fl) qs.
Proof.
  unfold selectURL.
  exists (a +:+ "/" +:+ b +:+ "/select?q="), ("&wt=json&indent=true" +:+ fl).
  now rewrite !append_assoc.
Qed.

Lemma selectURL_length (a b qs fl : string) :
  (String.length qs <= String.length (selectURL a b qs fl))%nat.
Proof. apply contains_length, selectURL_contains. Qed.

Lemma primaryURL_fallbackURL (a b i j : string) :
  primaryURL a b i <> fallbackURL a b j.
Proof.
  unfold primaryURL, fallbackURL. intros H. apply selectURL_inj in H.
  rewrite primaryQuery_eq, fallbackQuery_eq in H. discriminate.
Qed.

Lemma primaryURL_derivedURL (a b i j : string) :
  primaryURL a b i <> derivedURL a b j.
Proof.
  unfold primaryURL, derivedURL. intros H. apply selectURL_inj in H.
  rewrite primaryQuery_eq, derivedQuery_eq in H. discriminate.
Qed.

Lemma fallbackURL_derivedURL (a b i j : string) :
  fallbackURL a b i <> derivedURL a b j.
Proof.
  unfold fallbackURL, derivedURL. intros H. apply selectURL_inj in H.
  rewrite fallbackQuery_eq, derivedQuery_eq in H. discriminate.
Qed.

(** The three URLs, as [fmt.Sprintf] writes them. *)
Lemma primaryURL_text (a b i : string) :
  primaryURL a b i
  = a +:+ "/" +:+ b +:+ "/select?q="
      +:+ QueryEscape ("id:" +:+ dq +:+ i +:+ dq)
      +:+ "&wt=json&indent=true"
      +:+ "&fl=id,identifier_ssim,file_location_ssi,has_model_ssim,isPartOf_ssim".
Proof. reflexivity. Qed.

Lemma fallbackURL_text (a b i : string) :
  fallbackURL a b i
  = a +:+ "/" +:+ b +:+ "/select?q="
      +:+ QueryEscape ("identifier_ssim:" +:+ dq +:+ i +:+ dq)
      +:+ "&wt=json&indent=true"
      +:+ "&fl=id,identifier_ssim,file_location_ssi,has_model_ssim,isPartOf_ssim".
Proof. reflexivity. Qed.

Lemma derivedURL_text (a b i : string) :
  derivedURL a b i
  = a +:+ "/" +:+ b +:+ "/select?q="
      +:+ QueryEscape ("isDerivationOf_ssim:" +:+ dq +:+ i +:+ dq)
      +:+ "&wt=json&indent=true"
      +:+ "&fl=id,derivativeFile_ssi".
Proof. reflexivity. Qed.

(** ** The health check *)

Lemma getAPIResponse_error_iff (get : string -> httpResult) (url : string) :
  snd (getAPIResponse get url) = None <->
  exists respString, get url = GetResponse 200 respString.
Proof.
  unfold getAPIResponse.
  destruct (get url) as [err | code respString]; cbn [snd].
  - split; [discriminate | intros (b & H); discriminate].
  - destruct (Z.eqb_spec code 200) as [-> | Hne]; cbn [negb snd].
    + split; [intros _; now exists respString | reflexivity].
    + split; [discriminate |]. intros (b & H). injection H as H _.
      contradiction.
Qed.

Lemma health_run (solrURL solrCore : string) (get : string -> httpResult) :
  run (healthCheckHandler solrURL solrCore get)
  = (RJSONMap 200
       (<["Avalon" := match snd (getAPIResponse get (pingURL solrURL solrCore)) with
                      | Some _ => "false"
                      | None => "true"
                      end]> (<["AriesAvalon" := "true"]> ∅)),
     [pingURL solrURL solrCore]).
Proof.
  unfold run, healthCheckHandler, mbind, handler_bind, bind, call, finish,
    pingURL.
  cbn [app].
  destruct (getAPIResponse _ _) as [respStr [e|]]; reflexivity.
Qed.

(** ** The two parts of [ariesLookup] *)

(** Unfolds the handlers down to the requests and the decoding. *)
Ltac step :=
  unfold search, respond, ariesLookup, primaryURL, fallbackURL, derivedURL,
    mbind, handler_bind, bind, call, finish, ret, index0 in *;
  cbn [app].

Ltac unfold_get := unfold getAPIResponse in *.

Ltac unfold_urls := unfold primaryURL, fallbackURL, derivedURL in *.

Ltac unfold_results := unfold containerResult, memberResult in *.

Ltac open_lookup :=
  unfold run, ariesLookup, mbind, handler_bind, bind in *.

Section Facts.

Variables solrURL solrCore avalonURL : string.
Variable clientGet : string -> httpResult.
Variable Unmarshal :
  string -> solrFullResponse -> solrFullResponse * option string.

Opaque QueryEscape selectURL primaryQuery fallbackQuery derivedQuery
  lookupFields derivedFields.

Local Abbreviation getAPIResponse := (getAPIResponse clientGet).
Local Abbreviation search := (search solrURL solrCore clientGet Unmarshal).
Local Abbreviation respond :=
  (respond solrURL solrCore avalonURL clientGet Unmarshal).
Local Abbreviation ariesLookup :=
  (ariesLookup solrURL solrCore avalonURL clientGet Unmarshal).
Local Abbreviation primaryURL := (primaryURL solrURL solrCore).
Local Abbreviation fallbackURL := (fallbackURL solrURL solrCore).
Local Abbreviation derivedURL := (derivedURL solrURL solrCore).
Local Abbreviation queryURL := (queryURL solrURL solrCore).
Local Abbreviation found := (found solrURL solrCore clientGet Unmarshal).
Local Abbreviation searchResult :=
  (searchResult solrURL solrCore clientGet Unmarshal).
Local Abbreviation respondResult := (respondResult solrURL solrCore).

(** The request by id fails: its error text is the reply. *)
Lemma search_request_failed (passedID respStr e : string) :
  getAPIResponse (primaryURL passedID) = (respStr, Some e) ->
  search passedID [] = (inr (RString 404 e), [primaryURL passedID]).
Proof. intros G. step. now rewrite G. Qed.

(** The answer to the request by id does not decode. *)
Lemma search_undecodable (passedID respStr e : string) (r : solrFullResponse) :
  getAPIResponse (primaryURL passedID) = (respStr, None) ->
  Unmarshal respStr zeroResponse = (r, Some e) ->
  search passedID []
  = (inr (RString 404 (passedID +:+ " not found")), [primaryURL passedID]).
Proof. intros G U. step. now rewrite G, U. Qed.

(** No hits by id, and the answer to the second request does not decode. *)
Lemma search_fallback_undecodable (passedID respStr respStr1 e : string)
    (e1 : option string) (r0 r1 : solrFullResponse) :
  getAPIResponse (primaryURL passedID) = (respStr, None) ->
  Unmarshal respStr zeroResponse = (r0, None) ->
  NumFound (Response r0) = 0 ->
  getAPIResponse (fallbackURL passedID) = (respStr1, e1) ->
  Unmarshal respStr1 r0 = (r1, Some e) ->
  search passedID []
  = (inr (RString 404 (passedID +:+ " not found")),
     [primaryURL passedID; fallbackURL passedID]).
Proof.
  intros G U N0 G1 U1. step. rewrite G, U, N0. cbn [Z.eqb app].
  now rewrite G1, U1.
Qed.

(** No hits by id, none by alternate identifier. *)
Lemma search_nothing (passedID respStr respStr1 : string)
    (e1 : option string) (r0 r1 : solrFullResponse) :
  getAPIResponse (primaryURL passedID) = (respStr, None) ->
  Unmarshal respStr zeroResponse = (r0, None) ->
  NumFound (Response r0) = 0 ->
  getAPIResponse (fallbackURL passedID) = (respStr1, e1) ->
  Unmarshal respStr1 r0 = (r1, None) ->
  NumFound (Response r1) = 0 ->
  search passedID []
  = (inr (RString 404 (passedID +:+ " not found")),
     [primaryURL passedID; fallbackURL passedID]).
Proof.
  intros G U N0 G1 U1 N1. step. rewrite G, U, N0. cbn [Z.eqb app].
  now rewrite G1, U1, N1.
Qed.

Lemma search_found (passedID qs urlStr : string) (resp : solrFullResponse)
    (tr : list string) :
  found passedID qs urlStr resp tr ->
  search passedID [] = (inl (qs, urlStr, resp), tr).
Proof.
  intros [respStr r0 G U N0 | respStr r0 respStr1 e1 r1 G U N0 G1 U1 N1]; step.
  - rewrite G, U. apply Z.eqb_neq in N0. now rewrite N0.
  - rewrite G, U, N0. cbn [Z.eqb app]. rewrite G1, U1.
    apply Z.eqb_neq in N1. now rewrite N1.
Qed.

Lemma search_cases (passedID : string) :
  searchResult passedID (search passedID []).
Proof.
  destruct (getAPIResponse (primaryURL passedID)) as [respStr [e|]] eqn:G.
  { rewrite (search_request_failed _ _ _ G). apply search_failed. }
  destruct (Unmarshal respStr zeroResponse) as [r0 [e|]] eqn:U.
  { rewrite (search_undecodable _ _ _ _ G U). apply search_none. now left. }
  destruct (Z.eq_dec (NumFound (Response r0)) 0) as [N0 | N0].
  2: { pose proof (found_by_id _ _ _ _ _ _ _ G U N0) as F.
       rewrite (search_found _ _ _ _ _ F). now apply search_some. }
  destruct (getAPIResponse (fallbackURL passedID)) as [respStr1 e1] eqn:G1.
  destruct (Unmarshal respStr1 r0) as [r1 [e|]] eqn:U1.
  { rewrite (search_fallback_undecodable _ _ _ _ _ _ _ G U N0 G1 U1).
    apply search_none. now right. }
  destruct (Z.eq_dec (NumFound (Response r1)) 0) as [N1 | N1].
  { rewrite (search_nothing _ _ _ _ _ _ G U N0 G1 U1 N1).
    apply search_none. now right. }
  pose proof (found_by_alternate _ _ _ _ _ _ _ _ _ _ G U N0 G1 U1 N1) as F.
  rewrite (search_found _ _ _ _ _ F). now apply search_some.
Qed.

(** The second part never hands over: it replies or panics. *)
Lemma respond_replies (passedID qs urlStr : string) (resp : solrFullResponse)
    (tr : list string) :
  exists rep tr', respond passedID qs urlStr resp tr = (inr rep, tr').
Proof.
  destruct (respond passedID qs urlStr resp tr) as [[[] | rep] tr'].
  now exists rep, tr'.
Qed.

Lemma respond_ambiguous (passedID qs urlStr : string) (resp : solrFullResponse)
    (tr : list string) :
  1 < NumFound (Response resp) ->
  respond passedID qs urlStr resp tr
  = (inr (RString 400 (passedID +:+ " has too many hits. Query: " +:+ urlStr)),
     tr).
Proof.
  intros N. step. apply Z.gtb_lt in N. now rewrite N.
Qed.

Lemma respond_no_doc (passedID qs urlStr : string) (resp : solrFullResponse)
    (tr : list string) :
  NumFound (Response resp) <= 1 ->
  Docs (Response resp) = [] ->
  respond passedID qs urlStr resp tr = (inr RPanic, tr).
Proof.
  intros N D. step.
  destruct (Z.gtb_spec (NumFound (Response resp)) 1); [lia |].
  now rewrite D.
Qed.

Lemma respond_no_model (passedID qs urlStr : string) (resp : solrFullResponse)
    (tr : list string) (doc : solrDoc) (rest : list solrDoc) :
  NumFound (Response resp) <= 1 ->
  Docs (Response resp) = doc :: rest ->
  Model doc = [] ->
  respond passedID qs urlStr resp tr = (inr RPanic, tr).
Proof.
  intros N D M. step.
  destruct (Z.gtb_spec (NumFound (Response resp)) 1); [lia |].
  rewrite D; cbv beta iota delta [ret finish]. now rewrite M.
Qed.

Lemma respond_no_parent (passedID qs urlStr : string) (resp : solrFullResponse)
    (tr : list string) (doc : solrDoc) (rest : list solrDoc)
    (model0 : string) (models : list string) :
  NumFound (Response resp) <= 1 ->
  Docs (Response resp) = doc :: rest ->
  Model doc = model0 :: models ->
  model0 <> "MediaObject" ->
  PartOf doc = [] ->
  respond passedID qs urlStr resp tr = (inr RPanic, tr).
Proof.
  intros N D M C P. step.
  destruct (Z.gtb_spec (NumFound (Response resp)) 1); [lia |].
  rewrite D; cbv beta iota delta [ret finish]. rewrite M; cbv beta iota delta [ret finish].
  apply String.eqb_neq in C. rewrite C. now rewrite P.
Qed.

Lemma respond_container (passedID qs urlStr : string) (resp : solrFullResponse)
    (tr : list string) (doc : solrDoc) (rest : list solrDoc)
    (models : list string) :
  NumFound (Response resp) <= 1 ->
  Docs (Response resp) = doc :: rest ->
  Model doc = "MediaObject" :: models ->
  respond passedID qs urlStr resp tr
  = (inr (RJSON 200
        {| Identifiers := ID doc :: IdentifierSSIM doc;
           ServiceURL := [{| URL := queryURL qs; Protocol := "avalon-index" |}];
           AccessURL := [avalonURL +:+ "/media_objects/" +:+ ID doc];
           AdminURL := [avalonURL +:+ "/media_objects/" +:+ ID doc +:+ "/edit"];
           MetadataURL :=
             [avalonURL +:+ "/media_objects/" +:+ ID doc
                +:+ "/content/descMetadata"];
           MasterFile := masterFileOf doc;
           DerivativeFile := [] |}),
     tr).
Proof.
  intros N D M. step.
  destruct (Z.gtb_spec (NumFound (Response resp)) 1); [lia |].
  rewrite D; cbv beta iota delta [ret finish]. rewrite M; cbv beta iota delta [ret finish].
  now rewrite String.eqb_refl, appendAll_app.
Qed.

Lemma respond_member (passedID qs urlStr : string) (resp : solrFullResponse)
    (tr : list string) (doc : solrDoc) (rest : list solrDoc)
    (model0 partOf0 respStr : string) (models parents : list string)
    (err marshallErr : option string) (resp' : solrFullResponse) :
  NumFound (Response resp) <= 1 ->
  Docs (Response resp) = doc :: rest ->
  Model doc = model0 :: models ->
  model0 <> "MediaObject" ->
  PartOf doc = partOf0 :: parents ->
  getAPIResponse (derivedURL (ID doc)) = (respStr, err) ->
  Unmarshal respStr resp = (resp', marshallErr) ->
  respond passedID qs urlStr resp tr
  = (inr (RJSON 200
        {| Identifiers := ID doc :: IdentifierSSIM doc;
           ServiceURL := [{| URL := queryURL qs; Protocol := "avalon-index" |}];
           AccessURL :=
             [avalonURL +:+ "/media_objects/" +:+ partOf0 +:+ "/section/"
                +:+ ID doc];
           AdminURL :=
             [avalonURL +:+ "/media_objects/" +:+ partOf0 +:+ "/section/"
                +:+ ID doc +:+ "/edit"];
           MetadataURL := [];
           MasterFile := masterFileOf doc;
           DerivativeFile :=
             match marshallErr with
             | None =>
                 map derivativeFile_ssi
                   (List.filter nonEmptyDerivative (Docs (Response resp')))
             | Some _ => []
             end |}),
     tr ++ [derivedURL (ID doc)]).
Proof.
  intros N D M C P G U. step.
  destruct (Z.gtb_spec (NumFound (Response resp)) 1); [lia |].
  rewrite D; cbv beta iota delta [ret finish]. rewrite M; cbv beta iota delta [ret finish].
  apply String.eqb_neq in C. rewrite C. rewrite P; cbv beta iota delta [ret finish].
  rewrite G, U, appendAll_app.
  destruct marshallErr; [reflexivity |].
  now rewrite appendDerivatives_filter.
Qed.

Lemma respond_cases (passedID qs urlStr : string) (resp : solrFullResponse)
    (tr tr' : list string) (rep : reply) :
  respond passedID qs urlStr resp tr = (inr rep, tr') ->
  respondResult passedID qs urlStr resp tr (rep, tr').
Proof.
  intros R.
  destruct (Z.lt_ge_cases 1 (NumFound (Response resp))) as [N | N].
  { rewrite respond_ambiguous in R by exact N.
    injection R as <- <-. now apply respond_many. }
  apply Z.ge_le_iff, Z.ge_le in N.
  destruct (Docs (Response resp)) as [|doc rest] eqn:D.
  { rewrite respond_no_doc in R by assumption.
    injection R as <- <-. apply respond_panic; [exact N |].
    intros doc rest E. rewrite D in E. discriminate. }
  destruct (Model doc) as [|model0 models] eqn:M.
  { rewrite (respond_no_model _ _ _ _ _ _ _ N D M) in R.
    injection R as <- <-. apply respond_panic; [exact N |].
    intros doc' rest' E (m & H & _). rewrite D in E. injection E as <- <-.
    rewrite M in H. discriminate. }
  destruct (String.eqb_spec model0 "MediaObject") as [-> | C].
  { rewrite (respond_container _ _ _ _ _ _ _ _ N D M) in R.
    injection R as <- <-.
    eapply respond_record; try reflexivity; try eassumption; [| now left].
    exists "MediaObject". rewrite M. split; [reflexivity | congruence]. }
  destruct (PartOf doc) as [|partOf0 parents] eqn:P.
  { rewrite (respond_no_parent _ _ _ _ _ _ _ _ _ N D M C P) in R.
    injection R as <- <-. apply respond_panic; [exact N |].
    intros doc' rest' E (m & H & HP). rewrite D in E. injection E as <- <-.
    rewrite M in H. injection H as <-. now apply HP. }
  destruct (getAPIResponse (derivedURL (ID doc))) as [respStr err] eqn:G.
  destruct (Unmarshal respStr resp) as [resp' marshallErr] eqn:U.
  rewrite (respond_member _ _ _ _ _ _ _ _ _ _ _ _ _ _ _ N D M C P G U) in R.
  injection R as <- <-.
  eapply respond_record; try reflexivity; try eassumption; [| now right].
  exists model0. rewrite M, P. split; [reflexivity | discriminate].
Qed.


(** The query that found the record is the one by id, or the one by
    alternate identifier after a request by id. *)
Lemma found_query (passedID qs urlStr : string) (resp : solrFullResponse)
    (tr : list string) :
  found passedID qs urlStr resp tr ->
  (qs = primaryQuery passedID /\ urlStr = primaryURL passedID /\
   tr = [primaryURL passedID]) \/
  (qs = fallbackQuery passedID /\ urlStr = fallbackURL passedID /\
   tr = [primaryURL passedID; fallbackURL passedID]).
Proof. intros []; [left | right]; repeat split. Qed.

(** [ariesLookup] from its two parts. *)
Lemma lookup_search_over (passedID : string) (rep : reply) (tr : list string) :
  search passedID [] = (inr rep, tr) ->
  run (ariesLookup passedID) = (rep, tr).
Proof.
  intros S. open_lookup.
  now rewrite S.
Qed.

Lemma lookup_found (passedID qs urlStr : string) (resp : solrFullResponse)
    (tr tr' : list string) (rep : reply) :
  found passedID qs urlStr resp tr ->
  respond passedID qs urlStr resp tr = (inr rep, tr') ->
  run (ariesLookup passedID) = (rep, tr').
Proof.
  intros F R. open_lookup.
  now rewrite (search_found _ _ _ _ _ F), R.
Qed.

(** What [ariesLookup] can do, in full. *)
Lemma lookup_cases (passedID : string) (rep : reply) (tr' : list string) :
  run (ariesLookup passedID) = (rep, tr') ->
  (exists e, rep = RString 404 e /\
             (tr' = [primaryURL passedID] \/
              tr' = [primaryURL passedID; fallbackURL passedID])) \/
  (exists qs urlStr resp tr,
      found passedID qs urlStr resp tr /\
      respond passedID qs urlStr resp tr = (inr rep, tr')).
Proof.
  intros L. open_lookup.
  destruct (search_cases passedID) as [e | tr H | qs urlStr resp tr F].
  - injection L as <- <-. left. exists e. split; [reflexivity | now left].
  - injection L as <- <-. left. eexists. split; [reflexivity | exact H].
  - right. exists qs, urlStr, resp, tr. split; [exact F |].
    destruct (respond_replies passedID qs urlStr resp tr) as (rep0 & tr0 & R).
    rewrite R in L |- *. now injection L as <- <-.
Qed.

(** * The claims *)

(** C1. When the search ends on exactly one record, the identifier list of
    the result is the record's ID followed by its alternate identifiers in
    the order of the index, so its first element is the record's ID; and
    there is such a result for every record the derivation can classify. *)
Theorem C1_identifiers_record_id_first
    (passedID qs urlStr : string) (resp : solrFullResponse)
    (tr : list string) (doc : solrDoc) :
  found passedID qs urlStr resp tr ->
  exactlyOne resp doc ->
  (forall code out tr',
      run (ariesLookup passedID) = (RJSON code out, tr') ->
      Identifiers out = ID doc :: IdentifierSSIM doc /\
      Identifiers out !! 0%nat = Some (ID doc)) /\
  (classified doc ->
   exists out tr', run (ariesLookup passedID) = (RJSON 200 out, tr')).
Proof.
  intros F [N D].
  destruct (respond_replies passedID qs urlStr resp tr) as (rep & tr0 & R).
  pose proof (lookup_found _ _ _ _ _ _ _ F R) as L.
  apply respond_cases in R. split.
  - intros code out tr' L'. rewrite L in L'. injection L' as -> ->.
    inversion R as [| | doc' rest out' tr'' _ D' _ I _ _ _]; subst.
    rewrite D in D'. injection D' as <- <-.
    rewrite I. now split.
  - intros C.
    inversion R as [N' | _ P | doc' rest out' tr'' _ D' _ I _ _ _]; subst.
    + lia.
    + now destruct (P doc [] D).
    + now exists out', tr0.
Qed.

(** The second request is made exactly when the request by id was
    answered, decoded and counted zero records; when it then finds exactly
    one record that the derivation can classify, the lookup gives a result
    for it; when it finds none either, the reply is 404. *)
Lemma fallback_strategy (passedID : string) :
  (In (fallbackURL passedID) (snd (run (ariesLookup passedID))) <->
   exists respStr r0,
     getAPIResponse (primaryURL passedID) = (respStr, None) /\
     Unmarshal respStr zeroResponse = (r0, None) /\
     NumFound (Response r0) = 0) /\
  (forall respStr r0 respStr1 e1 r1 doc,
      getAPIResponse (primaryURL passedID) = (respStr, None) ->
      Unmarshal respStr zeroResponse = (r0, None) ->
      NumFound (Response r0) = 0 ->
      getAPIResponse (fallbackURL passedID) = (respStr1, e1) ->
      Unmarshal respStr1 r0 = (r1, None) ->
      exactlyOne r1 doc ->
      classified doc ->
      exists out tr',
        run (ariesLookup passedID) = (RJSON 200 out, tr') /\
        Identifiers out = ID doc :: IdentifierSSIM doc /\
        ServiceURL out
        = [{| URL := queryURL (fallbackQuery passedID);
              Protocol := "avalon-index" |}]) /\
  (forall respStr r0 respStr1 e1 r1,
      getAPIResponse (primaryURL passedID) = (respStr, None) ->
      Unmarshal respStr zeroResponse = (r0, None) ->
      NumFound (Response r0) = 0 ->
      getAPIResponse (fallbackURL passedID) = (respStr1, e1) ->
      Unmarshal respStr1 r0 = (r1, None) ->
      NumFound (Response r1) = 0 ->
      run (ariesLookup passedID)
      = (RString 404 (passedID +:+ " not found"),
         [primaryURL passedID; fallbackURL passedID])).
Proof.
  split; [| split].
  - destruct (getAPIResponse (primaryURL passedID)) as [respStr [e|]] eqn:G.
    { rewrite (lookup_search_over _ _ _ (search_request_failed _ _ _ G)).
      cbn [snd In]. split.
      - intros [H | []]. now apply primaryURL_fallbackURL in H.
      - intros (? & ? & H & _). discriminate. }
    destruct (Unmarshal respStr zeroResponse) as [r0 [e|]] eqn:U.
    { rewrite (lookup_search_over _ _ _ (search_undecodable _ _ _ _ G U)).
      cbn [snd In]. split.
      - intros [H | []]. now apply primaryURL_fallbackURL in H.
      - intros (b & r & H & U' & _). injection H as <-.
        rewrite U in U'. discriminate. }
    destruct (Z.eq_dec (NumFound (Response r0)) 0) as [N0 | N0].
    + split; [intros _; now exists respStr, r0 | intros _].
      destruct (getAPIResponse (fallbackURL passedID)) as [respStr1 e1] eqn:G1.
      destruct (Unmarshal respStr1 r0) as [r1 [e|]] eqn:U1.
      { rewrite (lookup_search_over _ _ _
                   (search_fallback_undecodable _ _ _ _ _ _ _ G U N0 G1 U1)).
        cbn [snd In]. tauto. }
      destruct (Z.eq_dec (NumFound (Response r1)) 0) as [N1 | N1].
      { rewrite (lookup_search_over _ _ _
                   (search_nothing _ _ _ _ _ _ G U N0 G1 U1 N1)).
        cbn [snd In]. tauto. }
      pose proof (found_by_alternate _ _ _ _ _ _ _ _ _ _ G U N0 G1 U1 N1) as F.
      destruct (respond_replies passedID (fallbackQuery passedID)
                  (fallbackURL passedID) r1
                  [primaryURL passedID; fallbackURL passedID])
        as (rep & tr0 & R).
      rewrite (lookup_found _ _ _ _ _ _ _ F R). apply respond_cases in R.
      cbn [snd].
      inversion R as [| | ? ? ? ? _ _ _ _ _ _ [T | T]]; subst;
        try apply in_app_iff; cbn [In]; tauto.
    + split.
      2: { intros (b & r & H & U' & N'). injection H as <-.
           rewrite U in U'. injection U' as <-. contradiction. }
      pose proof (found_by_id _ _ _ _ _ _ _ G U N0) as F.
      destruct (respond_replies passedID (primaryQuery passedID)
                  (primaryURL passedID) r0 [primaryURL passedID])
        as (rep & tr0 & R).
      rewrite (lookup_found _ _ _ _ _ _ _ F R). apply respond_cases in R.
      cbn [snd].
      inversion R as [| | ? ? ? ? _ _ _ _ _ _ [T | T]]; subst; cbn [In app].
      * intros [Hin | []]. now apply primaryURL_fallbackURL in Hin.
      * intros [Hin | []]. now apply primaryURL_fallbackURL in Hin.
      * intros [Hin | []]. now apply primaryURL_fallbackURL in Hin.
      * intros [Hin | [Hin | []]].
        -- now apply primaryURL_fallbackURL in Hin.
        -- symmetry in Hin. now apply fallbackURL_derivedURL in Hin.
  - intros respStr r0 respStr1 e1 r1 doc G U N0 G1 U1 [N1 D] C.
    assert (NumFound (Response r1) <> 0) as N1' by lia.
    pose proof (found_by_alternate _ _ _ _ _ _ _ _ _ _ G U N0 G1 U1 N1') as F.
    destruct (respond_replies passedID (fallbackQuery passedID)
                (fallbackURL passedID) r1
                [primaryURL passedID; fallbackURL passedID])
      as (rep & tr0 & R).
    rewrite (lookup_found _ _ _ _ _ _ _ F R). apply respond_cases in R.
    inversion R as [N' | _ P | doc' rest out' tr'' _ D' _ I S _ _]; subst.
    + lia.
    + now destruct (P doc [] D).
    + rewrite D in D'. injection D' as <- <-. now exists out', tr0.
  - intros respStr r0 respStr1 e1 r1 G U N0 G1 U1 N1.
    apply lookup_search_over. eapply search_nothing; eassumption.
Qed.


(** C4 (amended). When the request by id fails, the reply is 404 and its
    text is the error's own: the transport's text, or the body of a
    response that is not 200.  When the body of a 200 response does not
    decode, the reply is 404 and its text is the identifier followed by
    [ not found], which contains neither the URL requested nor its query
    string. *)
Theorem C4_failed_request_replies_404 (passedID : string) :
  (forall err,
      clientGet (primaryURL passedID) = GetError err ->
      run (ariesLookup passedID) = (RString 404 err, [primaryURL passedID])) /\
  (forall code body,
      clientGet (primaryURL passedID) = GetResponse code body ->
      code <> 200 ->
      run (ariesLookup passedID) = (RString 404 body, [primaryURL passedID])) /\
  (forall body resp e,
      clientGet (primaryURL passedID) = GetResponse 200 body ->
      Unmarshal body zeroResponse = (resp, Some e) ->
      run (ariesLookup passedID)
      = (RString 404 (passedID +:+ " not found"), [primaryURL passedID]) /\
      ~ contains (passedID +:+ " not found") (primaryURL passedID) /\
      ~ contains (passedID +:+ " not found") (primaryQuery passedID)).
Proof.
  split; [| split].
  - intros err H. apply lookup_search_over.
    apply search_request_failed with "". unfold_get. now rewrite H.
  - intros code body H Hne. apply lookup_search_over.
    apply search_request_failed with "". unfold_get. rewrite H.
    apply Z.eqb_neq in Hne. now rewrite Hne.
  - intros body resp e H U.
    assert (getAPIResponse (primaryURL passedID) = (body, None)) as G.
    { unfold_get. now rewrite H. }
    split; [| split].
    + apply lookup_search_over. eapply search_undecodable; eassumption.
    + intros C. apply contains_length in C.
      pose proof (selectURL_length solrURL solrCore (primaryQuery passedID)
                    lookupFields) as L1.
      pose proof (primaryQuery_length passedID) as L2.
      unfold_urls. rewrite length_append in C.
      cbn in C. lia.
    + intros C. apply contains_length in C.
      pose proof (primaryQuery_length passedID) as L2.
      rewrite length_append in C. cbn in C. lia.
Qed.

(** C5. The identifier [abc123], when the query by id finds exactly one
    record, a MediaObject with ID [abc123] and no alternate identifier,
    gets the four lists of the example, after one request only; and for
    every MediaObject found, by either query, the reply is a result with a
    metadata URL and no derivative file, and the requests are those of the
    search: none asks for the records derived from it. *)
Theorem C5_container_example :
  (forall respStr resp doc models,
      getAPIResponse (primaryURL "abc123") = (respStr, None) ->
      Unmarshal respStr zeroResponse = (resp, None) ->
      exactlyOne resp doc ->
      ID doc = "abc123" ->
      Model doc = "MediaObject" :: models ->
      IdentifierSSIM doc = [] ->
      exists out,
        run (ariesLookup "abc123") = (RJSON 200 out, [primaryURL "abc123"]) /\
        Identifiers out = ["abc123"] /\
        AccessURL out = [avalonURL +:+ "/media_objects/abc123"] /\
        AdminURL out = [avalonURL +:+ "/media_objects/abc123/edit"] /\
        MetadataURL out
        = [avalonURL +:+ "/media_objects/abc123/content/descMetadata"]) /\
  (forall passedID qs urlStr resp tr doc models,
      found passedID qs urlStr resp tr ->
      exactlyOne resp doc ->
      Model doc = "MediaObject" :: models ->
      exists out,
        run (ariesLookup passedID) = (RJSON 200 out, tr) /\
        MetadataURL out
        = [avalonURL +:+ "/media_objects/" +:+ ID doc
             +:+ "/content/descMetadata"] /\
        DerivativeFile out = [] /\
        forall docID, ~ In (derivedURL docID) tr).
Proof.
  split.
  - intros respStr resp doc models G U [N D] I M A.
    assert (NumFound (Response resp) <> 0) as N0 by lia.
    pose proof (found_by_id _ _ _ _ _ _ _ G U N0) as F.
    assert (NumFound (Response resp) <= 1) as N1 by lia.
    eexists. split.
    + eapply lookup_found; [exact F |].
      eapply respond_container; eassumption.
    + cbn [Identifiers AccessURL AdminURL MetadataURL]. rewrite I, A.
      repeat split.
  - intros passedID qs urlStr resp tr doc models F [N D] M.
    assert (NumFound (Response resp) <= 1) as N1 by lia.
    eexists. split; [| split; [| split]].
    + eapply lookup_found; [exact F |].
      eapply respond_container; eassumption.
    + reflexivity.
    + reflexivity.
    + intros docID Hin.
      destruct (found_query _ _ _ _ _ F) as [(_ & _ & ->) | (_ & _ & ->)];
        cbn [In] in Hin.
      * destruct Hin as [Hin | []]. now apply primaryURL_derivedURL in Hin.
      * destruct Hin as [Hin | [Hin | []]].
        -- now apply primaryURL_derivedURL in Hin.
        -- now apply fallbackURL_derivedURL in Hin.
Qed.

(** For a record that is not a MediaObject and has a parent: when the
    answer to the third request decodes, the derivative files of the
    result are the non-empty [derivativeFile_ssi] of the records that
    [resp] then holds, one entry each and in their order; when that answer
    does not decode, or (empty input being an error for the decoder) when
    the request fails, the lookup still gives a result, without derivative
    files. *)
Lemma derivative_files_of_decoded_answer
    (passedID qs urlStr : string) (resp : solrFullResponse) (tr : list string)
    (doc : solrDoc) (model0 partOf0 : string) (models parents : list string) :
  found passedID qs urlStr resp tr ->
  exactlyOne resp doc ->
  Model doc = model0 :: models ->
  model0 <> "MediaObject" ->
  PartOf doc = partOf0 :: parents ->
  (forall respStr err resp',
      getAPIResponse (derivedURL (ID doc)) = (respStr, err) ->
      Unmarshal respStr resp = (resp', None) ->
      exists out,
        run (ariesLookup passedID)
        = (RJSON 200 out, tr ++ [derivedURL (ID doc)]) /\
        DerivativeFile out
        = map derivativeFile_ssi
            (List.filter nonEmptyDerivative (Docs (Response resp'))) /\
        length (DerivativeFile out)
        = length (List.filter nonEmptyDerivative (Docs (Response resp')))) /\
  (forall respStr err resp' e,
      getAPIResponse (derivedURL (ID doc)) = (respStr, err) ->
      Unmarshal respStr resp = (resp', Some e) ->
      exists out,
        run (ariesLookup passedID)
        = (RJSON 200 out, tr ++ [derivedURL (ID doc)]) /\
        DerivativeFile out = []) /\
  ((forall prev, snd (Unmarshal "" prev) <> None) ->
   forall e,
     snd (getAPIResponse (derivedURL (ID doc))) = Some e ->
     exists out,
       run (ariesLookup passedID)
       = (RJSON 200 out, tr ++ [derivedURL (ID doc)]) /\
       DerivativeFile out = []).
Proof.
  intros F [N D] M C P.
  assert (NumFound (Response resp) <= 1) as N1 by lia.
  split; [| split].
  - intros respStr err resp' G U. eexists. split; [| split].
    + eapply lookup_found; [exact F |].
      eapply respond_member; eassumption.
    + reflexivity.
    + cbn [DerivativeFile]. now rewrite length_map.
  - intros respStr err resp' e G U. eexists. split.
    + eapply lookup_found; [exact F |].
      eapply respond_member; eassumption.
    + reflexivity.
  - intros Hempty e G.
    destruct (getAPIResponse (derivedURL (ID doc))) as [respStr err] eqn:G'.
    cbn [snd] in G. subst err.
    assert (respStr = "") as ->.
    { unfold_get. destruct (clientGet _) as [x | code body].
      - now injection G' as <- _.
      - destruct (negb _); [now injection G' as <- _ | discriminate]. }
    destruct (Unmarshal "" resp) as [resp' [e'|]] eqn:U.
    2: { exfalso. apply (Hempty resp). now rewrite U. }
    eexists. split.
    + eapply lookup_found; [exact F |].
      eapply respond_member; eassumption.
    + reflexivity.
Qed.

(** C8 (amended). A result carries exactly one service descriptor; its
    protocol is [avalon-index] and its URL is the select URL of the index
    with the query string that found the record as its only parameter: the
    URL that was requested for the record is this URL followed by
    [&wt=json&indent=true] and the field list.  The query string is the
    one by alternate identifier when that request was made, the one by id
    otherwise. *)
Theorem C8_service_descriptor_names_query
    (passedID : string) (code : Z) (out : aries) (tr' : list string) :
  run (ariesLookup passedID) = (RJSON code out, tr') ->
  exists qs urlStr,
    ServiceURL out
    = [{| URL := solrURL +:+ "/" +:+ solrCore +:+ "/select?q=" +:+ qs;
          Protocol := "avalon-index" |}] /\
    urlStr
    = (solrURL +:+ "/" +:+ solrCore +:+ "/select?q=" +:+ qs)
        +:+ "&wt=json&indent=true" +:+ lookupFields /\
    In urlStr tr' /\
    (exists resp tr, found passedID qs urlStr resp tr) /\
    ((qs = primaryQuery passedID /\ ~ In (fallbackURL passedID) tr') \/
     (qs = fallbackQuery passedID /\ In (fallbackURL passedID) tr')).
Proof.
  intros L.
  destruct (lookup_cases _ _ _ L)
    as [(e & E & _) | (qs & urlStr & resp & tr & F & R)]; [discriminate |].
  apply respond_cases in R.
  inversion R as [| | doc rest out' tr'' N D C I S M T]; subst.
  exists qs, urlStr. split; [exact S | split; [| split; [| split]]].
  - destruct (found_query _ _ _ _ _ F) as [(-> & -> & _) | (-> & -> & _)];
      apply selectURL_queryURL.
  - destruct (found_query _ _ _ _ _ F) as [(_ & -> & ->) | (_ & -> & ->)];
      destruct T as [-> | ->]; try apply in_app_iff; cbn [In]; tauto.
  - now exists resp, tr.
  - destruct (found_query _ _ _ _ _ F) as [(-> & _ & ->) | (-> & _ & ->)];
      [left | right]; (split; [reflexivity |]).
    + destruct T as [-> | ->]; cbn [In app].
      * intros [Hin | []]. now apply primaryURL_fallbackURL in Hin.
      * intros [Hin | [Hin | []]].
        -- now apply primaryURL_fallbackURL in Hin.
        -- symmetry in Hin. now apply fallbackURL_derivedURL in Hin.
    + destruct T as [-> | ->]; try apply in_app_iff; cbn [In]; tauto.
Qed.

(** C9 (amended). The health check requests the zero-row query once and
    reports [false] for [Avalon] exactly when the request ends in an error
    of the transport or in a response whose status is not 200, and [true]
    exactly when the status is 200. *)
Theorem C9_health_false_unless_200 :
  exists hcMap,
    run (healthCheckHandler solrURL solrCore clientGet)
    = (RJSONMap 200 hcMap,
       [solrURL +:+ "/" +:+ solrCore +:+ "/select?q=*:*&wt=json&rows=0"]) /\
    (hcMap !! "Avalon" = Some "false" <->
     (exists err, clientGet (pingURL solrURL solrCore) = GetError err) \/
     (exists code body,
         clientGet (pingURL solrURL solrCore) = GetResponse code body /\
         code <> 200)) /\
    (hcMap !! "Avalon" = Some "true" <->
     exists body, clientGet (pingURL solrURL solrCore) = GetResponse 200 body).
Proof.
  eexists. split; [apply health_run |].
  rewrite lookup_insert_eq.
  pose proof (getAPIResponse_error_iff clientGet (pingURL solrURL solrCore)) as E.
  destruct (snd (getAPIResponse (pingURL solrURL solrCore))) as [e|]; split.
  - split; [intros _ | reflexivity].
    destruct (clientGet _) as [err | code body]; [left; now exists err |].
    right. exists code, body. split; [reflexivity |].
    intros ->. assert (Some e = None) by (apply E; now exists body).
    discriminate.
  - split; [discriminate |]. intros H. apply E in H. discriminate.
  - split; [discriminate |]. destruct E as [E _].
    destruct (E eq_refl) as (body & H). rewrite H.
    intros [(err & H') | (code & body' & H' & Hne)]; [discriminate |].
    injection H' as <- _. contradiction.
  - split; [intros _; now apply E | reflexivity].
Qed.

(** C10. Whatever the index does, the health check replies 200 with a map
    in which [AriesAvalon] is [true]; between any two behaviours of the
    index, the maps differ at most at [Avalon]. *)
Theorem C10_health_always_200 :
  exists hcMap tr,
    run (healthCheckHandler solrURL solrCore clientGet)
    = (RJSONMap 200 hcMap, tr) /\
    hcMap !! "AriesAvalon" = Some "true" /\
    forall clientGet' : string -> httpResult,
    exists hcMap' tr',
      run (healthCheckHandler solrURL solrCore clientGet')
      = (RJSONMap 200 hcMap', tr') /\
      hcMap' !! "AriesAvalon" = Some "true" /\
      forall k, k <> "Avalon" -> hcMap' !! k = hcMap !! k.
Proof.
  do 2 eexists. split; [apply health_run | split].
  - rewrite lookup_insert_ne by discriminate. apply lookup_insert_eq.
  - intros clientGet'. do 2 eexists. split; [apply health_run | split].
    + rewrite lookup_insert_ne by discriminate. apply lookup_insert_eq.
    + intros k Hk. rewrite !(lookup_insert_ne _ "Avalon") by congruence.
      reflexivity.
Qed.

End Facts.

Transparent QueryEscape selectURL primaryQuery fallbackQuery derivedQuery
  lookupFields derivedFields.

(** ** The concrete indexes, run *)

Import Examples.

Ltac evaluate := vm_compute; reflexivity.

Lemma found_by_id_example (index : string -> httpResult) (passedID : string) :
  snd (getAPIResponse index (primaryURL solr core passedID)) = None ->
  snd (GoJSON.Unmarshal (bodyOf index (primaryURL solr core passedID))
         zeroResponse) = None ->
  NumFound (Response (decodedOf index (primaryURL solr core passedID)
                        zeroResponse)) <> 0 ->
  found solr core index GoJSON.Unmarshal passedID
    (primaryQuery passedID) (primaryURL solr core passedID)
    (decodedOf index (primaryURL solr core passedID) zeroResponse)
    [primaryURL solr core passedID].
Proof.
  intros G U N. unfold decodedOf, bodyOf in *.
  destruct (getAPIResponse index _) as [respStr err] eqn:G'.
  cbn [fst snd] in *. subst err.
  destruct (GoJSON.Unmarshal respStr zeroResponse) as [r0 e] eqn:U'.
  cbn [fst snd] in *. subst e.
  eapply found_by_id; eassumption.
Qed.

Lemma found_by_alternate_example (index : string -> httpResult)
    (passedID : string) :
  snd (getAPIResponse index (primaryURL solr core passedID)) = None ->
  snd (GoJSON.Unmarshal (bodyOf index (primaryURL solr core passedID))
         zeroResponse) = None ->
  NumFound (Response (decodedOf index (primaryURL solr core passedID)
                        zeroResponse)) = 0 ->
  snd (GoJSON.Unmarshal (bodyOf index (fallbackURL solr core passedID))
         (decodedOf index (primaryURL solr core passedID) zeroResponse))
  = None ->
  NumFound (Response
              (decodedOf index (fallbackURL solr core passedID)
                 (decodedOf index (primaryURL solr core passedID)
                    zeroResponse))) <> 0 ->
  found solr core index GoJSON.Unmarshal passedID
    (fallbackQuery passedID) (fallbackURL solr core passedID)
    (decodedOf index (fallbackURL solr core passedID)
       (decodedOf index (primaryURL solr core passedID) zeroResponse))
    [primaryURL solr core passedID; fallbackURL solr core passedID].
Proof.
  intros G U N G1 N1. unfold decodedOf, bodyOf in *.
  destruct (getAPIResponse index (primaryURL _ _ _)) as [respStr err] eqn:G'.
  cbn [fst snd] in *. subst err.
  destruct (GoJSON.Unmarshal respStr zeroResponse) as [r0 e] eqn:U'.
  cbn [fst snd] in *. subst e.
  destruct (getAPIResponse index (fallbackURL _ _ _)) as [respStr1 err1] eqn:G1'.
  cbn [fst snd] in *.
  destruct (GoJSON.Unmarshal respStr1 r0) as [r1 e] eqn:U1'.
  cbn [fst snd] in *. subst e.
  eapply found_by_alternate; eassumption.
Qed.

Lemma container_found :
  found solr core containerIndex GoJSON.Unmarshal "abc123"
    (primaryQuery "abc123") (primaryURL solr core "abc123")
    (decodedOf containerIndex (primaryURL solr core "abc123") zeroResponse)
    [primaryURL solr core "abc123"].
Proof.
  apply found_by_id_example; [evaluate | evaluate | vm_compute; discriminate].
Qed.

Lemma member_found :
  found solr core memberIndex GoJSON.Unmarshal "alt-7"
    (fallbackQuery "alt-7") (fallbackURL solr core "alt-7")
    (decodedOf memberIndex (fallbackURL solr core "alt-7")
       (decodedOf memberIndex (primaryURL solr core "alt-7") zeroResponse))
    [primaryURL solr core "alt-7"; fallbackURL solr core "alt-7"].
Proof.
  apply found_by_alternate_example;
    [evaluate | evaluate | evaluate | evaluate | vm_compute; discriminate].
Qed.


Lemma bare_member_found (index : string -> httpResult) :
  index (primaryURL solr core "mf1")
  = memberIndexNoDerived (primaryURL solr core "mf1") ->
  found solr core index GoJSON.Unmarshal "mf1"
    (primaryQuery "mf1") (primaryURL solr core "mf1")
    (decodedOf memberIndexNoDerived (primaryURL solr core "mf1") zeroResponse)
    [primaryURL solr core "mf1"].
Proof.
  intros E.
  replace (decodedOf memberIndexNoDerived (primaryURL solr core "mf1")
             zeroResponse)
    with (decodedOf index (primaryURL solr core "mf1") zeroResponse)
    by (unfold decodedOf, bodyOf, getAPIResponse; now rewrite E).
  apply found_by_id_example; unfold decodedOf, bodyOf, getAPIResponse;
    rewrite E; [evaluate | evaluate | vm_compute; discriminate].
Qed.

Lemma Unmarshal_empty (prev : solrFullResponse) :
  snd (GoJSON.Unmarshal "" prev) <> None.
Proof. vm_compute. discriminate. Qed.

(** ** Records the derivation cannot classify *)

(** C7. The derivation is not total.  A Derivative record, which has a
    model other than MediaObject and no [isPartOf_ssim], makes the handler
    read [doc.PartOf[0]] of an empty slice; a record without
    [has_model_ssim] makes it read [doc.Model[0]] of an empty slice.  Both
    lookups end in a run-time panic, after the request by id. *)
Theorem C7_derivation_reads_out_of_bounds :
  lookup derivativeIndex "d1" = (RPanic, [primaryURL solr core "d1"]) /\
  lookup modellessIndex "x1" = (RPanic, [primaryURL solr core "x1"]).
Proof. split; evaluate. Qed.

(** C2. One record found by alternate identifier does not always give a
    success.  For [alt-9] the request by id, whose query is the escaped
    [id:"alt-9"], is answered with a count of zero; the second request,
    whose query is the escaped [identifier_ssim:"alt-9"], is answered with
    exactly one record, a Derivative, which has a model other than
    MediaObject and no [isPartOf_ssim].  The handler then reads
    [doc.PartOf[0]] of an empty slice: the lookup ends in a run-time panic
    after these two requests, and no reply is written. *)
Theorem C2_alternate_hit_panics :
  let byID :=
    "http://solr:8983/solr/avalon/select?q=id%3A%22alt-9%22&wt=json&indent=true&fl=id,identifier_ssim,file_location_ssi,has_model_ssim,isPartOf_ssim" in
  let byAlternate :=
    "http://solr:8983/solr/avalon/select?q=identifier_ssim%3A%22alt-9%22&wt=json&indent=true&fl=id,identifier_ssim,file_location_ssi,has_model_ssim,isPartOf_ssim" in
  let r0 :=
    decodedOf MoreExamples.derivativeByAlternateIndex byID zeroResponse in
  let r1 := decodedOf MoreExamples.derivativeByAlternateIndex byAlternate r0 in
  NumFound (Response r0) = 0 /\
  Docs (Response r0) = [] /\
  exactlyOne r1 MoreExamples.derivativeDoc /\
  Model MoreExamples.derivativeDoc = ["Derivative"] /\
  PartOf MoreExamples.derivativeDoc = [] /\
  lookup MoreExamples.derivativeByAlternateIndex "alt-9"
  = (RPanic, [byID; byAlternate]).
Proof. cbv zeta. repeat split; evaluate. Qed.

(** ** The answer on derivatives, decoded over the record found *)


(** ** Instances of the claims *)

Lemma C1_witness :
  exists out tr',
    lookup memberIndex "alt-7" = (RJSON 200 out, tr') /\
    Identifiers out = ["mf1"; "alt-7"; "tape 12"] /\
    Identifiers out !! 0%nat = Some "mf1".
Proof.
  assert (exactlyOne
            (decodedOf memberIndex (fallbackURL solr core "alt-7")
               (decodedOf memberIndex (primaryURL solr core "alt-7")
                  zeroResponse))
            memberDoc) as E by (split; evaluate).
  assert (classified memberDoc) as C.
  { exists "MasterFile". split; [reflexivity | intros _; discriminate]. }
  destruct (C1_identifiers_record_id_first solr core avalon memberIndex
              GoJSON.Unmarshal "alt-7" _ _ _ _ memberDoc member_found E)
    as [H1 H2].
  destruct (H2 C) as (out & tr' & L).
  exists out, tr'. split; [exact L | exact (H1 200 out tr' L)].
Defined.


Lemma C4_witness :
  (exists msg,
      lookup unreachableIndex "abc123"
      = (RString 404 msg, [primaryURL solr core "abc123"]) /\
      unreachableIndex (primaryURL solr core "abc123") = GetError msg) /\
  lookup brokenIndex "abc123"
  = (RString 404 "Server Error: SolrCore is loading",
     [primaryURL solr core "abc123"]) /\
  lookup garbledIndex "abc123"
  = (RString 404 "abc123 not found", [primaryURL solr core "abc123"]) /\
  ~ contains "abc123 not found" (primaryURL solr core "abc123").
Proof.
  destruct (C4_failed_request_replies_404 solr core avalon unreachableIndex
              GoJSON.Unmarshal "abc123") as (H1 & _).
  destruct (C4_failed_request_replies_404 solr core avalon brokenIndex
              GoJSON.Unmarshal "abc123") as (_ & H2 & _).
  destruct (C4_failed_request_replies_404 solr core avalon garbledIndex
              GoJSON.Unmarshal "abc123") as (_ & _ & H3).
  split; [| split].
  - eexists. split; [apply H1 |]; reflexivity.
  - apply (H2 500); [reflexivity | lia].
  - destruct (H3 "<html>maintenance</html>" zeroResponse "json: syntax error")
      as (L & C & _); [reflexivity | evaluate |].
    split; [exact L | exact C].
Defined.

Lemma C5_witness :
  (exists out,
      lookup containerIndex "abc123"
      = (RJSON 200 out, [primaryURL solr core "abc123"]) /\
      Identifiers out = ["abc123"] /\
      AccessURL out = ["http://avalon.example.org/media_objects/abc123"] /\
      AdminURL out = ["http://avalon.example.org/media_objects/abc123/edit"] /\
      MetadataURL out
      = ["http://avalon.example.org/media_objects/abc123/content/descMetadata"]) /\
  (exists out,
      lookup containerIndex "abc123"
      = (RJSON 200 out, [primaryURL solr core "abc123"]) /\
      DerivativeFile out = [] /\
      ~ In (derivedURL solr core "abc123") [primaryURL solr core "abc123"]).
Proof.
  destruct (C5_container_example solr core avalon containerIndex
              GoJSON.Unmarshal) as (H1 & H2).
  assert (exactlyOne
            (decodedOf containerIndex (primaryURL solr core "abc123")
               zeroResponse)
            containerDoc) as E by (split; evaluate).
  split.
  - apply (H1 (bodyOf containerIndex (primaryURL solr core "abc123"))
              (decodedOf containerIndex (primaryURL solr core "abc123")
                 zeroResponse)
              containerDoc []); try evaluate; exact E.
  - destruct (H2 "abc123" _ _ _ _ containerDoc [] container_found E eq_refl)
      as (out & L & _ & D & T).
    exists out. split; [exact L | split; [exact D | apply T]].
Defined.

Lemma C8_witness :
  exists qs urlStr,
    ServiceURL (resultOf (lookup memberIndex "alt-7"))
    = [{| URL := solr +:+ "/" +:+ core +:+ "/select?q=" +:+ qs;
          Protocol := "avalon-index" |}] /\
    urlStr
    = (solr +:+ "/" +:+ core +:+ "/select?q=" +:+ qs)
        +:+ "&wt=json&indent=true" +:+ lookupFields /\
    In urlStr (snd (lookup memberIndex "alt-7")) /\
    qs = fallbackQuery "alt-7".
Proof.
  destruct (C8_service_descriptor_names_query solr core avalon memberIndex
              GoJSON.Unmarshal "alt-7" 200
              (resultOf (lookup memberIndex "alt-7"))
              (snd (lookup memberIndex "alt-7")))
    as (qs & urlStr & S & U & I & _ & Q); [evaluate |].
  exists qs, urlStr. split; [exact S | split; [exact U | split; [exact I |]]].
  destruct Q as [(_ & Q) | (Q & _)]; [| exact Q].
  exfalso. apply Q. vm_compute. tauto.
Defined.

(** ** Where the claims as written fail *)


(** C4 as written fails: an index that answers 500 makes the reply carry
    the body of that answer, which is no not-found message; and the text
    of a transport error, which names the URL requested, is passed on to
    the caller with the query string in it. *)
Lemma C4_counterexample :
  brokenIndex (primaryURL solr core "abc123")
  = GetResponse 500 "Server Error: SolrCore is loading" /\
  lookup brokenIndex "abc123"
  = (RString 404 "Server Error: SolrCore is loading",
     [primaryURL solr core "abc123"]) /\
  ~ contains "Server Error: SolrCore is loading" "not found" /\
  exists msg,
    lookup unreachableIndex "abc123"
    = (RString 404 msg, [primaryURL solr core "abc123"]) /\
    contains msg (primaryURL solr core "abc123") /\
    contains msg (primaryQuery "abc123").
Proof.
  split; [reflexivity | split; [evaluate | split]].
  - intros C. apply containsb_spec in C. vm_compute in C. discriminate.
  - eexists. split; [evaluate | split]; apply containsb_spec; evaluate.
Qed.

(** C8 as written fails: the URL of the service descriptor is neither the
    URL that was requested to retrieve the record (it stops before the
    [wt], [indent] and [fl] parameters) nor the query string itself,
    escaped or not. *)
Lemma C8_counterexample :
  exists out svc urlStr,
    lookup containerIndex "abc123" = (RJSON 200 out, [urlStr]) /\
    ServiceURL out = [svc] /\
    URL svc = "http://solr:8983/solr/avalon/select?q=id%3A%22abc123%22" /\
    URL svc <> urlStr /\
    URL svc <> primaryQuery "abc123" /\
    URL svc <> "id:" +:+ dq +:+ "abc123" +:+ dq.
Proof.
  do 3 eexists. split; [evaluate | split; [reflexivity | split]].
  - reflexivity.
  - repeat split; vm_compute; discriminate.
Qed.

(** C9 as written fails: a response with status 204, which is a 2xx status
    and neither a timeout nor a transport failure, is reported as
    [false]. *)
Lemma C9_counterexample :
  noContentIndex (pingURL solr core) = GetResponse 204 "" /\
  200 <= 204 < 300 /\
  exists hcMap,
    health noContentIndex = (RJSONMap 200 hcMap, [pingURL solr core]) /\
    hcMap !! "Avalon" = Some "false".
Proof.
  split; [reflexivity | split; [lia |]].
  eexists. split; [apply health_run |].
  now rewrite lookup_insert_eq.
Qed.

(** * Beyond the claims *)

(** ** [hasValue], [getAPIResponse], [url.QueryEscape] *)

(** X1. [hasValue] answers whether the target is one of the values. *)
Theorem hasValue_In (values : list string) (tgtVal : string) :
  hasValue values tgtVal = true <-> In tgtVal values.
Proof.
  induction values as [|val rest IH]; cbn [hasValue In].
  - split; [discriminate | tauto].
  - destruct (String.eqb_spec val tgtVal) as [-> | Hne].
    + split; [now left | reflexivity].
    + rewrite IH. split; [now right | now intros [H | H]].
Qed.

(** X2. [getAPIResponse] returns the body of a 200 response and no error,
    or an error and the empty string: never a body together with an
    error, and a response that is not 200 has its body as the error
    text. *)
Theorem getAPIResponse_body_or_error (get : string -> httpResult)
    (url : string) :
  (exists body,
      get url = GetResponse 200 body /\
      getAPIResponse get url = (body, None)) \/
  (exists e,
      getAPIResponse get url = (EmptyString, Some e) /\
      (get url = GetError e \/
       exists code, get url = GetResponse code e /\ code <> 200)).
Proof.
  unfold getAPIResponse. destruct (get url) as [err | code body].
  - right. exists err. split; [reflexivity | now left].
  - destruct (Z.eqb_spec code 200) as [-> | Hne]; cbn [negb].
    + left. now exists body.
    + right. exists body. split; [reflexivity | right]. now exists code.
Qed.

Lemma allChars_app (p : ascii -> bool) (a b : string) :
  allChars p (a +:+ b) = allChars p a && allChars p b.
Proof.
  induction a as [|c a IH]; [reflexivity |].
  rewrite append_cons. cbn [allChars]. now rewrite IH, andb_assoc.
Qed.

Lemma QueryEscape_one_char (c : ascii) :
  allChars queryChar (QueryEscape (String c EmptyString)) = true.
Proof. destruct c as [[] [] [] [] [] [] [] []]; reflexivity. Qed.

Lemma QueryEscape_allChars (s : string) :
  allChars queryChar (QueryEscape s) = true.
Proof.
  induction s as [|c s IH]; [reflexivity |].
  change (String c s) with (String c EmptyString +:+ s).
  now rewrite QueryEscape_app, allChars_app, QueryEscape_one_char, IH.
Qed.

Lemma allChars_contains (p : ascii -> bool) (s : string) (c : ascii) :
  allChars p s = true -> contains s (String c EmptyString) -> p c = true.
Proof.
  intros A (pre & post & ->).
  rewrite allChars_app in A. apply andb_true_iff in A as [_ A].
  rewrite append_cons in A. cbn [allChars] in A.
  now apply andb_true_iff in A as [A _].
Qed.

(** X10. Whatever the identifier, the query strings sent to the index are
    made of letters, digits and [-_.~+%] only: the identifier cannot put a
    double quote, a space, [&], [=], [#] or [?] into the URL requested. *)
Theorem query_strings_are_escaped (passedID : string) :
  allChars queryChar (primaryQuery passedID) = true /\
  allChars queryChar (fallbackQuery passedID) = true /\
  allChars queryChar (derivedQuery passedID) = true /\
  forall c,
    In c (list_ascii_of_string (dq +:+ " &=#?")) ->
    ~ contains (primaryQuery passedID) (String c EmptyString) /\
    ~ contains (fallbackQuery passedID) (String c EmptyString) /\
    ~ contains (derivedQuery passedID) (String c EmptyString).
Proof.
  unfold primaryQuery, fallbackQuery, derivedQuery.
  repeat split; try apply QueryEscape_allChars;
    intros C; apply allChars_contains with (p := queryChar) in C;
    try apply QueryEscape_allChars;
    cbn in H; repeat destruct H as [<- | H]; try discriminate; exact H.
Qed.

(** ** The second and the third request, by their URLs *)

(** X13. The URL with the escaped query [identifier_ssim:"<id>"] is
    requested exactly when the request for [id:"<id>"] was answered with
    200, decoded, and counted zero records.  When the second answer then
    decodes to exactly one record that has a model and is a MediaObject or
    has a parent, the lookup replies 200 with that record's identifiers
    and the [identifier_ssim] query in its service descriptor; when it
    decodes to a count of zero, the reply is 404 after these two
    requests. *)
Theorem fallback_only_without_hits_by_id
    (solrURL solrCore avalonURL : string) (clientGet : string -> httpResult)
    (Unmarshal : string -> solrFullResponse -> solrFullResponse * option string)
    (passedID : string) :
  let byID :=
    solrURL +:+ "/" +:+ solrCore +:+ "/select?q="
      +:+ QueryEscape ("id:" +:+ dq +:+ passedID +:+ dq)
      +:+ "&wt=json&indent=true"
      +:+ "&fl=id,identifier_ssim,file_location_ssi,has_model_ssim,isPartOf_ssim" in
  let byAlternate :=
    solrURL +:+ "/" +:+ solrCore +:+ "/select?q="
      +:+ QueryEscape ("identifier_ssim:" +:+ dq +:+ passedID +:+ dq)
      +:+ "&wt=json&indent=true"
      +:+ "&fl=id,identifier_ssim,file_location_ssi,has_model_ssim,isPartOf_ssim" in
  let lookup :=
    run (ariesLookup solrURL solrCore avalonURL clientGet Unmarshal passedID) in
  (In byAlternate (snd lookup) <->
   exists respStr r0,
     getAPIResponse clientGet byID = (respStr, None) /\
     Unmarshal respStr zeroResponse = (r0, None) /\
     NumFound (Response r0) = 0) /\
  (forall respStr r0 respStr1 e1 r1 doc,
      getAPIResponse clientGet byID = (respStr, None) ->
      Unmarshal respStr zeroResponse = (r0, None) ->
      NumFound (Response r0) = 0 ->
      getAPIResponse clientGet byAlternate = (respStr1, e1) ->
      Unmarshal respStr1 r0 = (r1, None) ->
      exactlyOne r1 doc ->
      classified doc ->
      exists out tr',
        lookup = (RJSON 200 out, tr') /\
        Identifiers out = ID doc :: IdentifierSSIM doc /\
        ServiceURL out
        = [{| URL :=
                solrURL +:+ "/" +:+ solrCore +:+ "/select?q="
                  +:+ QueryEscape ("identifier_ssim:" +:+ dq +:+ passedID +:+ dq);
              Protocol := "avalon-index" |}]) /\
  (forall respStr r0 respStr1 e1 r1,
      getAPIResponse clientGet byID = (respStr, None) ->
      Unmarshal respStr zeroResponse = (r0, None) ->
      NumFound (Response r0) = 0 ->
      getAPIResponse clientGet byAlternate = (respStr1, e1) ->
      Unmarshal respStr1 r0 = (r1, None) ->
      NumFound (Response r1) = 0 ->
      lookup
      = (RString 404 (passedID +:+ " not found"), [byID; byAlternate])).
Proof.
  cbv zeta.
  pose proof (fallback_strategy solrURL solrCore avalonURL clientGet Unmarshal
                passedID) as H.
  rewrite primaryURL_text, fallbackURL_text in H.
  unfold queryURL, fallbackQuery in H.
  exact H.
Qed.

(** X14. For a record found that is not a MediaObject and has a parent,
    the URL with the escaped query [isDerivationOf_ssim:"<record ID>"] is
    requested last.  When its answer decodes, the derivative files of the
    result are the non-empty [derivativeFile_ssi] of the records that
    [resp] holds after the decoding, one entry each and in their order;
    when it does not decode, or when the request fails (empty input being
    an error for the decoder), the reply is still 200, without derivative
    files. *)
Theorem derivative_files_best_effort
    (solrURL solrCore avalonURL : string) (clientGet : string -> httpResult)
    (Unmarshal : string -> solrFullResponse -> solrFullResponse * option string)
    (passedID qs urlStr : string) (resp : solrFullResponse) (tr : list string)
    (doc : solrDoc) (model0 partOf0 : string) (models parents : list string) :
  let derived :=
    solrURL +:+ "/" +:+ solrCore +:+ "/select?q="
      +:+ QueryEscape ("isDerivationOf_ssim:" +:+ dq +:+ ID doc +:+ dq)
      +:+ "&wt=json&indent=true"
      +:+ "&fl=id,derivativeFile_ssi" in
  let lookup :=
    run (ariesLookup solrURL solrCore avalonURL clientGet Unmarshal passedID) in
  found solrURL solrCore clientGet Unmarshal passedID qs urlStr resp tr ->
  exactlyOne resp doc ->
  Model doc = model0 :: models ->
  model0 <> "MediaObject" ->
  PartOf doc = partOf0 :: parents ->
  (forall respStr err resp',
      getAPIResponse clientGet derived = (respStr, err) ->
      Unmarshal respStr resp = (resp', None) ->
      exists out,
        lookup = (RJSON 200 out, tr ++ [derived]) /\
        DerivativeFile out
        = map derivativeFile_ssi
            (List.filter nonEmptyDerivative (Docs (Response resp'))) /\
        length (DerivativeFile out)
        = length (List.filter nonEmptyDerivative (Docs (Response resp')))) /\
  (forall respStr err resp' e,
      getAPIResponse clientGet derived = (respStr, err) ->
      Unmarshal respStr resp = (resp', Some e) ->
      exists out,
        lookup = (RJSON 200 out, tr ++ [derived]) /\
        DerivativeFile out = []) /\
  ((forall prev, snd (Unmarshal EmptyString prev) <> None) ->
   forall e,
     snd (getAPIResponse clientGet derived) = Some e ->
     exists out,
       lookup = (RJSON 200 out, tr ++ [derived]) /\
       DerivativeFile out = []).
Proof.
  cbv zeta. intros F E M C P.
  pose proof (derivative_files_of_decoded_answer solrURL solrCore avalonURL
                clientGet Unmarshal passedID qs urlStr resp tr doc model0
                partOf0 models parents F E M C P) as H.
  rewrite derivedURL_text in H.
  exact H.
Qed.

(** ** [ariesLookup] and [healthCheckHandler], as a whole *)

Section Whole.

Variables solrURL solrCore avalonURL : string.
Variable clientGet : string -> httpResult.
Variable Unmarshal :
  string -> solrFullResponse -> solrFullResponse * option string.

Opaque QueryEscape selectURL primaryQuery fallbackQuery derivedQuery
  lookupFields derivedFields.

Local Abbreviation getAPIResponse := (getAPIResponse clientGet).
Local Abbreviation respond :=
  (respond solrURL solrCore avalonURL clientGet Unmarshal).
Local Abbreviation ariesLookup :=
  (ariesLookup solrURL solrCore avalonURL clientGet Unmarshal).
Local Abbreviation primaryURL := (primaryURL solrURL solrCore).
Local Abbreviation fallbackURL := (fallbackURL solrURL solrCore).
Local Abbreviation derivedURL := (derivedURL solrURL solrCore).
Local Abbreviation queryURL := (queryURL solrURL solrCore).
Local Abbreviation found := (found solrURL solrCore clientGet Unmarshal).
Local Abbreviation containerResult :=
  (containerResult solrURL solrCore avalonURL).
Local Abbreviation memberResult := (memberResult solrURL solrCore avalonURL).

(** Every reply of the second part, by the record it is made from. *)
Lemma respond_by_record (passedID qs urlStr : string) (resp : solrFullResponse)
    (tr tr' : list string) (rep : reply) :
  respond passedID qs urlStr resp tr = (inr rep, tr') ->
  (1 < NumFound (Response resp) /\ tr' = tr /\
   rep = RString 400 (passedID +:+ " has too many hits. Query: " +:+ urlStr)) \/
  (NumFound (Response resp) <= 1 /\ tr' = tr /\ rep = RPanic /\
   forall doc rest, Docs (Response resp) = doc :: rest -> ~ classified doc) \/
  (exists doc rest models,
      NumFound (Response resp) <= 1 /\ Docs (Response resp) = doc :: rest /\
      Model doc = "MediaObject" :: models /\ tr' = tr /\
      rep = RJSON 200 (containerResult qs doc)) \/
  (exists doc rest model0 models partOf0 parents derivatives,
      NumFound (Response resp) <= 1 /\ Docs (Response resp) = doc :: rest /\
      Model doc = model0 :: models /\ model0 <> "MediaObject" /\
      PartOf doc = partOf0 :: parents /\
      tr' = tr ++ [derivedURL (ID doc)] /\
      Forall (fun f => f <> EmptyString) derivatives /\
      rep = RJSON 200 (memberResult qs doc partOf0 derivatives)).
Proof.
  intros R.
  destruct (Z.lt_ge_cases 1 (NumFound (Response resp))) as [N | N].
  { erewrite respond_ambiguous in R by exact N.
    injection R as <- <-. now left. }
  apply Z.ge_le_iff, Z.ge_le in N. right.
  destruct (Docs (Response resp)) as [|doc rest] eqn:D.
  { erewrite respond_no_doc in R by assumption.
    injection R as <- <-. left. repeat split; try assumption. discriminate. }
  destruct (Model doc) as [|model0 models] eqn:M.
  { erewrite respond_no_model in R by eassumption.
    injection R as <- <-. left. repeat split; try assumption.
    intros doc' rest' E (m & H & _). injection E as <- <-.
    rewrite M in H. discriminate. }
  destruct (String.eqb_spec model0 "MediaObject") as [-> | C].
  { erewrite respond_container in R by eassumption.
    injection R as <- <-. right. left. now exists doc, rest, models. }
  destruct (PartOf doc) as [|partOf0 parents] eqn:P.
  { erewrite respond_no_parent in R by eassumption.
    injection R as <- <-. left. repeat split; try assumption.
    intros doc' rest' E (m & H & HP). injection E as <- <-.
    rewrite M in H. injection H as <-. now apply HP. }
  destruct (getAPIResponse (derivedURL (ID doc))) as [respStr err] eqn:G.
  destruct (Unmarshal respStr resp) as [resp' marshallErr] eqn:U.
  erewrite respond_member in R by eassumption.
  injection R as <- <-. right. right.
  eexists doc, rest, model0, models, partOf0, parents, _.
  repeat split; try eassumption; try reflexivity.
  destruct marshallErr; [constructor |].
  apply Forall_forall. intros f Hf. apply list_elem_of_In in Hf.
  apply in_map_iff in Hf as (d & <- & Hd).
  apply filter_In in Hd as [_ Hd]. unfold nonEmptyDerivative in Hd.
  intros E. rewrite E in Hd. discriminate.
Qed.

(** Every run of [ariesLookup], by where it ends. *)
Lemma lookup_outcome (passedID : string) (rep : reply) (tr' : list string) :
  run (ariesLookup passedID) = (rep, tr') ->
  (exists respStr e,
      getAPIResponse (primaryURL passedID) = (respStr, Some e) /\
      rep = RString 404 e /\ tr' = [primaryURL passedID]) \/
  (rep = RString 404 (passedID +:+ " not found") /\
   (tr' = [primaryURL passedID] \/
    tr' = [primaryURL passedID; fallbackURL passedID])) \/
  (exists qs urlStr resp tr,
      found passedID qs urlStr resp tr /\
      respond passedID qs urlStr resp tr = (inr rep, tr')).
Proof.
  intros L.
  destruct (getAPIResponse (primaryURL passedID)) as [respStr [e|]] eqn:G.
  { erewrite lookup_search_over in L by (eapply search_request_failed; exact G).
    injection L as <- <-. left. now exists respStr, e. }
  destruct (Unmarshal respStr zeroResponse) as [r0 [e|]] eqn:U.
  { erewrite lookup_search_over in L by (eapply search_undecodable; eassumption).
    injection L as <- <-. right. left. split; [reflexivity | now left]. }
  destruct (Z.eq_dec (NumFound (Response r0)) 0) as [N0 | N0].
  2: { pose proof (found_by_id _ _ _ _ _ _ _ G U N0) as F.
       right. right. do 4 eexists. split; [exact F |].
       destruct (respond_replies solrURL solrCore avalonURL clientGet Unmarshal
                   passedID (primaryQuery passedID) (primaryURL passedID) r0
                   [primaryURL passedID]) as (rep0 & tr0 & R).
       rewrite (lookup_found _ _ _ _ _ _ _ _ _ _ _ _ F R) in L.
       now injection L as <- <-. }
  destruct (getAPIResponse (fallbackURL passedID)) as [respStr1 e1] eqn:G1.
  destruct (Unmarshal respStr1 r0) as [r1 [e|]] eqn:U1.
  { erewrite lookup_search_over in L
      by (eapply search_fallback_undecodable; eassumption).
    injection L as <- <-. right. left. split; [reflexivity | now right]. }
  destruct (Z.eq_dec (NumFound (Response r1)) 0) as [N1 | N1].
  { erewrite lookup_search_over in L by (eapply search_nothing; eassumption).
    injection L as <- <-. right. left. split; [reflexivity | now right]. }
  pose proof (found_by_alternate _ _ _ _ _ _ _ _ _ _ G U N0 G1 U1 N1) as F.
  right. right. do 4 eexists. split; [exact F |].
  destruct (respond_replies solrURL solrCore avalonURL clientGet Unmarshal
              passedID (fallbackQuery passedID) (fallbackURL passedID) r1
              [primaryURL passedID; fallbackURL passedID]) as (rep0 & tr0 & R).
  rewrite (lookup_found _ _ _ _ _ _ _ _ _ _ _ _ F R) in L.
  now injection L as <- <-.
Qed.

(** A result, by the record it is made from. *)
Lemma lookup_result (passedID : string) (code : Z) (out : aries)
    (tr' : list string) :
  run (ariesLookup passedID) = (RJSON code out, tr') ->
  exists qs urlStr resp tr doc rest,
    found passedID qs urlStr resp tr /\
    NumFound (Response resp) <= 1 /\ Docs (Response resp) = doc :: rest /\
    code = 200 /\
    ((exists models,
         Model doc = "MediaObject" :: models /\ tr' = tr /\
         out = containerResult qs doc) \/
     (exists model0 models partOf0 parents derivatives,
         Model doc = model0 :: models /\ model0 <> "MediaObject" /\
         PartOf doc = partOf0 :: parents /\
         tr' = tr ++ [derivedURL (ID doc)] /\
         Forall (fun f => f <> EmptyString) derivatives /\
         out = memberResult qs doc partOf0 derivatives)).
Proof.
  intros L.
  destruct (lookup_outcome _ _ _ L)
    as [(? & ? & _ & E & _) | [(E & _) | (qs & urlStr & resp & tr & F & R)]];
    try discriminate.
  apply respond_by_record in R
    as [(_ & _ & E) | [(_ & _ & E & _) | [C | M]]]; try discriminate.
  - destruct C as (doc & rest & models & N & D & M & -> & E).
    injection E as -> ->.
    exists qs, urlStr, resp, tr, doc, rest.
    repeat split; try assumption. left. now exists models.
  - destruct M
      as (doc & rest & model0 & models & partOf0 & parents & ds
          & N & D & M & C & P & -> & A & E).
    injection E as -> ->.
    exists qs, urlStr, resp, tr, doc, rest.
    repeat split; try assumption. right.
    now exists model0, models, partOf0, parents, ds.
Qed.

(** X3. A lookup requests the query by id first, then the query by
    alternate identifier or none, then the query for derivatives or none:
    one to three requests, and never the same URL twice. *)
Theorem lookup_requests (passedID : string) :
  let tr := snd (run (ariesLookup passedID)) in
  (tr = [primaryURL passedID] \/
   tr = [primaryURL passedID; fallbackURL passedID] \/
   (exists docID, tr = [primaryURL passedID; derivedURL docID]) \/
   (exists docID,
       tr = [primaryURL passedID; fallbackURL passedID; derivedURL docID])) /\
  NoDup tr.
Proof.
  cbv zeta.
  destruct (run (ariesLookup passedID)) as [rep tr'] eqn:L. cbn [snd].
  assert (tr' = [primaryURL passedID] \/
          tr' = [primaryURL passedID; fallbackURL passedID] \/
          (exists docID, tr' = [primaryURL passedID; derivedURL docID]) \/
          (exists docID,
              tr' = [primaryURL passedID; fallbackURL passedID;
                     derivedURL docID])) as S.
  { destruct (lookup_outcome _ _ _ L)
      as [(? & ? & _ & _ & ->) | [(_ & [-> | ->]) | (qs & urlStr & resp & tr & F & R)]];
      try tauto.
    apply found_query in F as T.
    apply respond_by_record in R
      as [(_ & -> & _) | [(_ & -> & _) | [C | M]]].
    - destruct T as [(_ & _ & ->) | (_ & _ & ->)]; tauto.
    - destruct T as [(_ & _ & ->) | (_ & _ & ->)]; tauto.
    - destruct C as (? & ? & ? & _ & _ & _ & -> & _).
      destruct T as [(_ & _ & ->) | (_ & _ & ->)]; tauto.
    - destruct M as (doc & ? & ? & ? & ? & ? & ? & _ & _ & _ & _ & _ & -> & _).
      destruct T as [(_ & _ & ->) | (_ & _ & ->)]; cbn [app].
      + right. right. left. now exists (ID doc).
      + right. right. right. now exists (ID doc). }
  split; [exact S |].
  pose proof (primaryURL_fallbackURL solrURL solrCore passedID passedID) as PF.
  destruct S as [-> | [-> | [(d & ->) | (d & ->)]]];
    try pose proof (primaryURL_derivedURL solrURL solrCore passedID d) as PD;
    try pose proof (fallbackURL_derivedURL solrURL solrCore passedID d) as FD;
    repeat (apply NoDup_cons; split); try apply NoDup_nil_2;
    rewrite ?list_elem_of_In; cbn [In]; intuition congruence.
Qed.

(** X4. A lookup replies 404 with the text of the failed request by id or
    with the identifier followed by [ not found], 400 with a text that
    ends in the URL requested last, or 200 with a result; it has no other
    status code and no other body, and otherwise it panics. *)
Theorem lookup_reply_codes (passedID : string) :
  match run (ariesLookup passedID) with
  | (RString code msg, tr) =>
      (code = 404 /\
       (msg = passedID +:+ " not found" \/
        exists respStr,
          getAPIResponse (primaryURL passedID) = (respStr, Some msg))) \/
      (code = 400 /\
       msg = passedID +:+ " has too many hits. Query: "
               +:+ List.last tr EmptyString)
  | (RJSON code _, _) => code = 200
  | (RJSONMap _ _, _) => False
  | (RPanic, _) => True
  end.
Proof.
  destruct (run (ariesLookup passedID)) as [rep tr'] eqn:L.
  destruct (lookup_outcome _ _ _ L)
    as [(respStr & e & G & -> & ->) | [(-> & _) | (qs & urlStr & resp & tr & F & R)]].
  - left. split; [reflexivity | right]. now exists respStr.
  - left. split; [reflexivity | now left].
  - apply found_query in F as T.
    apply respond_by_record in R
      as [(_ & -> & ->) | [(_ & _ & -> & _) | [C | M]]].
    + right. split; [reflexivity |].
      now destruct T as [(_ & -> & ->) | (_ & -> & ->)].
    + exact I.
    + now destruct C as (? & ? & ? & _ & _ & _ & _ & ->).
    + now destruct M as (? & ? & ? & ? & ? & ? & ? & _ & _ & _ & _ & _ & _ & _ & ->).
Qed.

(** X5. In every result there is one access URL, under the catalog's
    [/media_objects/], and one administrative URL, which is the access URL
    followed by [/edit]; a metadata URL, when there is one, is the access
    URL followed by [/content/descMetadata]. *)
Theorem result_urls_share_the_access_url (passedID : string) (code : Z)
    (out : aries) (tr' : list string) :
  run (ariesLookup passedID) = (RJSON code out, tr') ->
  exists path,
    AccessURL out = [avalonURL +:+ "/media_objects/" +:+ path] /\
    AdminURL out = [(avalonURL +:+ "/media_objects/" +:+ path) +:+ "/edit"] /\
    (MetadataURL out = [] \/
     MetadataURL out
     = [(avalonURL +:+ "/media_objects/" +:+ path) +:+ "/content/descMetadata"]).
Proof.
  intros L.
  destruct (lookup_result _ _ _ _ L)
    as (qs & urlStr & resp & tr & doc & rest & _ & _ & _ & _ & [C | M]).
  - destruct C as (models & _ & _ & ->). exists (ID doc).
    unfold_results. cbn [AccessURL AdminURL MetadataURL].
    rewrite !append_assoc. repeat split. now right.
  - destruct M as (? & ? & partOf0 & ? & ds & _ & _ & _ & _ & _ & ->).
    exists (partOf0 +:+ "/section/" +:+ ID doc).
    unfold_results. cbn [AccessURL AdminURL MetadataURL].
    rewrite !append_assoc. repeat split. now left.
Qed.

(** X6. A result has a metadata URL exactly when no query for derivatives
    was requested, and then it has no derivative file. *)
Theorem metadata_or_derivatives (passedID : string) (code : Z) (out : aries)
    (tr' : list string) :
  run (ariesLookup passedID) = (RJSON code out, tr') ->
  (MetadataURL out <> [] <-> forall docID, ~ In (derivedURL docID) tr') /\
  (MetadataURL out <> [] -> DerivativeFile out = []).
Proof.
  intros L.
  destruct (lookup_result _ _ _ _ L)
    as (qs & urlStr & resp & tr & doc & rest & F & _ & _ & _ & [C | M]).
  - destruct C as (models & _ & -> & ->). unfold_results.
    cbn [MetadataURL DerivativeFile]. split; [| reflexivity].
    split; [intros _ | discriminate]. intros d Hin.
    pose proof (primaryURL_derivedURL solrURL solrCore passedID d).
    pose proof (fallbackURL_derivedURL solrURL solrCore passedID d).
    destruct (found_query _ _ _ _ _ _ _ _ _ F) as [(_ & _ & ->) | (_ & _ & ->)];
      cbn [In] in Hin; intuition congruence.
  - destruct M as (? & ? & partOf0 & ? & ds & _ & _ & _ & -> & _ & ->).
    unfold_results. cbn [MetadataURL DerivativeFile].
    split; [| congruence]. split; [congruence |]. intros H. exfalso.
    apply (H (ID doc)), in_app_iff. right. now left.
Qed.

(** X7. The file lists of a result never hold an empty string, and there
    is at most one master file. *)
Theorem result_files_are_not_empty (passedID : string) (code : Z) (out : aries)
    (tr' : list string) :
  run (ariesLookup passedID) = (RJSON code out, tr') ->
  Forall (fun f => f <> EmptyString) (MasterFile out) /\
  Forall (fun f => f <> EmptyString) (DerivativeFile out) /\
  (length (MasterFile out) <= 1)%nat.
Proof.
  intros L.
  assert (forall doc,
             Forall (fun f => f <> EmptyString) (masterFileOf doc) /\
             (length (masterFileOf doc) <= 1)%nat) as MF.
  { intros doc. unfold masterFileOf.
    destruct (String.eqb_spec (FileLocation doc) EmptyString) as [E | E];
      cbn [negb length]; split; try lia; repeat constructor. exact E. }
  destruct (lookup_result _ _ _ _ L)
    as (qs & urlStr & resp & tr & doc & rest & _ & _ & _ & _ & [C | M]).
  - destruct C as (models & _ & _ & ->). unfold_results.
    cbn [MasterFile DerivativeFile]. destruct (MF doc). repeat split; trivial.
  - destruct M as (? & ? & partOf0 & ? & ds & _ & _ & _ & _ & A & ->).
    unfold_results. cbn [MasterFile DerivativeFile].
    destruct (MF doc). repeat split; trivial.
Qed.

(** X8. A lookup panics exactly when its search found something, the
    count is not above one, and there is no first record that has a model
    and is a MediaObject or has a parent (no record is listed at all, for
    one); it has then made the requests of the search and no other. *)
Theorem lookup_panics_iff (passedID : string) (tr' : list string) :
  run (ariesLookup passedID) = (RPanic, tr') <->
  exists qs urlStr resp,
    found passedID qs urlStr resp tr' /\
    NumFound (Response resp) <= 1 /\
    forall doc rest, Docs (Response resp) = doc :: rest -> ~ classified doc.
Proof.
  split.
  - intros L.
    destruct (lookup_outcome _ _ _ L)
      as [(? & ? & _ & E & _) | [(E & _) | (qs & urlStr & resp & tr & F & R)]];
      try discriminate.
    apply respond_by_record in R
      as [(_ & _ & E) | [(N & -> & _ & P) | [C | M]]]; try discriminate.
    + now exists qs, urlStr, resp.
    + now destruct C as (? & ? & ? & _ & _ & _ & _ & E).
    + now destruct M as (? & ? & ? & ? & ? & ? & ? & _ & _ & _ & _ & _ & _ & _ & E).
  - intros (qs & urlStr & resp & F & N & P).
    destruct (respond_replies solrURL solrCore avalonURL clientGet Unmarshal
                passedID qs urlStr resp tr') as (rep & tr0 & R).
    rewrite (lookup_found _ _ _ _ _ _ _ _ _ _ _ _ F R).
    apply respond_by_record in R
      as [(N' & _) | [(_ & -> & -> & _) | [C | M]]].
    + lia.
    + reflexivity.
    + destruct C as (doc & rest & models & _ & D & M & _). exfalso.
      apply (P doc rest D). exists "MediaObject". rewrite M. now split.
    + destruct M as (doc & rest & m & ? & ? & ? & ? & _ & D & M & _ & Q & _).
      exfalso. apply (P doc rest D). exists m. rewrite M, Q. now split.
Qed.

(** X9. The count is only compared with zero and with one: for any count
    that is not zero and not above one, a negative one too, the result is
    made from the first record listed, however many are listed. *)
Theorem first_record_is_served (passedID qs urlStr : string)
    (resp : solrFullResponse) (tr : list string) (doc : solrDoc)
    (rest : list solrDoc) :
  found passedID qs urlStr resp tr ->
  NumFound (Response resp) <= 1 ->
  Docs (Response resp) = doc :: rest ->
  classified doc ->
  exists out tr',
    run (ariesLookup passedID) = (RJSON 200 out, tr') /\
    Identifiers out = ID doc :: IdentifierSSIM doc /\
    MasterFile out = masterFileOf doc.
Proof.
  intros F N D (m & Hm & Hp).
  destruct (respond_replies solrURL solrCore avalonURL clientGet Unmarshal
              passedID qs urlStr resp tr) as (rep & tr0 & R).
  rewrite (lookup_found _ _ _ _ _ _ _ _ _ _ _ _ F R).
  apply respond_by_record in R
    as [(N' & _) | [(_ & _ & _ & P) | [C | M]]].
  - lia.
  - destruct (P doc rest D). now exists m.
  - destruct C as (doc' & rest' & models & _ & D' & _ & -> & ->).
    rewrite D in D'. injection D' as <- <-. now do 2 eexists.
  - destruct M as (doc' & rest' & ? & ? & ? & ? & ? & _ & D' & _ & _ & _ & -> & _ & ->).
    rewrite D in D'. injection D' as <- <-. now do 2 eexists.
Qed.

End Whole.

Transparent QueryEscape selectURL primaryQuery fallbackQuery derivedQuery
  lookupFields derivedFields.

(** X11. The map of the health check always has the two keys
    [AriesAvalon] and [Avalon] and no other, and each of its values is
    [true] or [false]. *)
Theorem health_map_has_two_entries (solrURL solrCore : string)
    (clientGet : string -> httpResult) :
  exists hcMap tr,
    run (healthCheckHandler solrURL solrCore clientGet)
    = (RJSONMap 200 hcMap, tr) /\
    dom hcMap = ({["AriesAvalon"; "Avalon"]} : gset string) /\
    forall k v, hcMap !! k = Some v -> v = "true" \/ v = "false".
Proof.
  do 2 eexists. split; [apply health_run | split].
  - rewrite !dom_insert_L, dom_empty_L. set_solver.
  - intros k v. rewrite !lookup_insert.
    destruct (snd (getAPIResponse clientGet (pingURL solrURL solrCore)));
      repeat case_decide; rewrite ?lookup_empty; intros E;
      try discriminate; injection E as <-; tauto.
Qed.

(** ** The first revision of the lookup *)

Lemma Join_three (a b c sep : string) :
  Join [a; b; c] sep = a +:+ sep +:+ b +:+ sep +:+ c.
Proof. reflexivity. Qed.

(** X12. The first revision makes one request, for the three clauses on
    [id], [alternate_id_facet] and [barcode_facet] joined by [+]; it
    replies 200 exactly when the request succeeds, the body decodes, the
    status in the header is zero and the count is not zero, and the result
    is then empty; every other reply is 404. *)
Theorem first_revision_lookup (solrURL solrCore : string)
    (clientGet : string -> httpResult)
    (Unmarshal : string -> solrFullResponse -> solrFullResponse * option string)
    (passedID : string) :
  let url :=
    solrURL +:+ "/" +:+ solrCore +:+ "/select?q="
      +:+ (QueryEscape ("id:" +:+ dq +:+ passedID +:+ dq) +:+ "+"
           +:+ QueryEscape ("alternate_id_facet:" +:+ dq +:+ passedID +:+ dq)
           +:+ "+"
           +:+ QueryEscape ("barcode_facet:" +:+ dq +:+ passedID +:+ dq))
      +:+ "&wt=json&indent=true" +:+ FirstRevision.lookupFields in
  let r :=
    run (FirstRevision.ariesLookup solrURL solrCore clientGet Unmarshal
           passedID) in
  snd r = [url] /\
  (fst r = RJSON 200 FirstRevision.zeroAries \/
   exists msg, fst r = RString 404 msg) /\
  (fst r = RJSON 200 FirstRevision.zeroAries <->
   exists respStr resp,
     getAPIResponse clientGet url = (respStr, None) /\
     Unmarshal respStr zeroResponse = (resp, None) /\
     Status (ResponseHeader resp) = 0 /\
     NumFound (Response resp) <> 0).
Proof.
  cbv zeta.
  unfold run, FirstRevision.ariesLookup, mbind, handler_bind, bind, call,
    finish, FirstRevision.lookupURL, FirstRevision.clauses.
  cbn [app]. rewrite Join_three. unfold selectURL.
  set (url := solrURL +:+ _).
  destruct (getAPIResponse clientGet url) as [respStr [e|]] eqn:G;
    cbn [fst snd].
  { split; [reflexivity | split; [right; now exists e |]].
    split; [discriminate | intros (? & ? & E & _); discriminate]. }
  destruct (Unmarshal respStr zeroResponse) as [resp [e|]] eqn:U;
    cbn [fst snd].
  { split; [reflexivity | split; [right; eauto |]].
    split; [discriminate |]. intros (b & r & E & U' & _).
    injection E as <-. rewrite U in U'. discriminate. }
  destruct (Z.eqb_spec (Status (ResponseHeader resp)) 0) as [S | S];
    cbn [negb fst snd].
  2: { split; [reflexivity | split; [right; eauto |]].
       split; [discriminate |]. intros (b & r & E & U' & S' & _).
       injection E as <-. rewrite U in U'. injection U' as <-. contradiction. }
  destruct (Z.eqb_spec (NumFound (Response resp)) 0) as [N | N];
    cbn [fst snd].
  { split; [reflexivity | split; [right; eauto |]].
    split; [discriminate |]. intros (b & r & E & U' & _ & N').
    injection E as <-. rewrite U in U'. injection U' as <-. contradiction. }
  split; [reflexivity | split; [now left |]].
  split; [intros _ | reflexivity]. now exists respStr, resp.
Qed.

(** ** Instances *)

Import MoreExamples.

Lemma query_strings_are_escaped_witness :
  ~ contains (primaryQuery "a&rows=1000") "&" /\
  ~ contains (fallbackQuery "a&rows=1000") "&" /\
  ~ contains (derivedQuery "a&rows=1000") "&".
Proof.
  destruct (query_strings_are_escaped "a&rows=1000") as (_ & _ & _ & H).
  apply (H "&"%char). vm_compute. tauto.
Defined.

Lemma result_urls_share_the_access_url_witness :
  exists path,
    AccessURL (resultOf (lookup memberIndex "alt-7"))
    = [avalon +:+ "/media_objects/" +:+ path] /\
    AdminURL (resultOf (lookup memberIndex "alt-7"))
    = [(avalon +:+ "/media_objects/" +:+ path) +:+ "/edit"] /\
    (MetadataURL (resultOf (lookup memberIndex "alt-7")) = [] \/
     MetadataURL (resultOf (lookup memberIndex "alt-7"))
     = [(avalon +:+ "/media_objects/" +:+ path) +:+ "/content/descMetadata"]).
Proof.
  apply (result_urls_share_the_access_url solr core avalon memberIndex
           GoJSON.Unmarshal "alt-7" 200
           (resultOf (lookup memberIndex "alt-7"))
           (snd (lookup memberIndex "alt-7"))).
  vm_compute. reflexivity.
Defined.

Lemma metadata_or_derivatives_witness :
  (MetadataURL (resultOf (lookup containerIndex "abc123")) <> [] <->
   forall docID,
     ~ In (derivedURL solr core docID) (snd (lookup containerIndex "abc123"))) /\
  (MetadataURL (resultOf (lookup containerIndex "abc123")) <> [] ->
   DerivativeFile (resultOf (lookup containerIndex "abc123")) = []).
Proof.
  apply (metadata_or_derivatives solr core avalon containerIndex
           GoJSON.Unmarshal "abc123" 200
           (resultOf (lookup containerIndex "abc123"))
           (snd (lookup containerIndex "abc123"))).
  vm_compute. reflexivity.
Defined.

Lemma result_files_are_not_empty_witness :
  Forall (fun f => f <> EmptyString)
    (MasterFile (resultOf (lookup memberIndex "alt-7"))) /\
  Forall (fun f => f <> EmptyString)
    (DerivativeFile (resultOf (lookup memberIndex "alt-7"))) /\
  (length (MasterFile (resultOf (lookup memberIndex "alt-7"))) <= 1)%nat.
Proof.
  apply (result_files_are_not_empty solr core avalon memberIndex
           GoJSON.Unmarshal "alt-7" 200
           (resultOf (lookup memberIndex "alt-7"))
           (snd (lookup memberIndex "alt-7"))).
  vm_compute. reflexivity.
Defined.

Lemma negative_count_found :
  found solr core negativeCountIndex GoJSON.Unmarshal "abc123"
    (primaryQuery "abc123") (primaryURL solr core "abc123")
    (decodedOf negativeCountIndex (primaryURL solr core "abc123") zeroResponse)
    [primaryURL solr core "abc123"].
Proof.
  apply found_by_id_example; [evaluate | evaluate | vm_compute; discriminate].
Qed.

Lemma no_docs_found :
  found solr core noDocsIndex GoJSON.Unmarshal "abc123"
    (primaryQuery "abc123") (primaryURL solr core "abc123")
    (decodedOf noDocsIndex (primaryURL solr core "abc123") zeroResponse)
    [primaryURL solr core "abc123"].
Proof.
  apply found_by_id_example; [evaluate | evaluate | vm_compute; discriminate].
Qed.

Lemma lookup_panics_iff_witness :
  lookup noDocsIndex "abc123" = (RPanic, [primaryURL solr core "abc123"]).
Proof.
  apply (lookup_panics_iff solr core avalon noDocsIndex GoJSON.Unmarshal).
  exists (primaryQuery "abc123"), (primaryURL solr core "abc123"),
    (decodedOf noDocsIndex (primaryURL solr core "abc123") zeroResponse).
  split; [exact no_docs_found | split].
  - vm_compute. discriminate.
  - intros doc rest D. vm_compute in D. discriminate.
Defined.

Lemma first_record_is_served_witness :
  NumFound
    (Response
       (decodedOf negativeCountIndex (primaryURL solr core "abc123")
          zeroResponse)) = -1 /\
  exists out tr',
    lookup negativeCountIndex "abc123" = (RJSON 200 out, tr') /\
    Identifiers out = ["abc123"] /\
    MasterFile out = [].
Proof.
  split; [evaluate |].
  apply (first_record_is_served solr core avalon negativeCountIndex
           GoJSON.Unmarshal "abc123" _ _ _ _ containerDoc
           [{| ID := "other"; Model := ["MediaObject"]; PartOf := [];
               FileLocation := ""; IdentifierSSIM := [];
               derivativeFile_ssi := "" |}]
           negative_count_found).
  - vm_compute. discriminate.
  - evaluate.
  - exists "MediaObject". split; [reflexivity | congruence].
Defined.

Lemma first_revision_lookup_witness :
  lookup1 oneHitIndex "u1" = (RJSON 200 FirstRevision.zeroAries,
                              [FirstRevision.lookupURL solr core "u1"]) /\
  lookup1 headerErrorIndex "u1"
  = (RString 404 "u1 not found", [FirstRevision.lookupURL solr core "u1"]).
Proof.
  destruct (first_revision_lookup solr core oneHitIndex GoJSON.Unmarshal "u1")
    as (T1 & _ & H1).
  destruct (first_revision_lookup solr core headerErrorIndex GoJSON.Unmarshal
              "u1") as (T2 & [E2 | (msg & E2)] & H2).
  { apply H2 in E2 as (respStr & resp & G & U & S & _).
    vm_compute in G. injection G as <-. vm_compute in U.
    injection U as <-. discriminate. }
  split.
  - apply injective_projections; [| exact T1]. apply H1.
    exists (bodyOf oneHitIndex (FirstRevision.lookupURL solr core "u1")),
      (decodedOf oneHitIndex (FirstRevision.lookupURL solr core "u1")
         zeroResponse).
    repeat split; try evaluate. vm_compute. discriminate.
  - evaluate.
Defined.

Lemma fallback_only_without_hits_by_id_witness :
  In (fallbackURL solr core "alt-7") (snd (lookup memberIndex "alt-7")) /\
  (exists out tr',
      lookup memberIndex "alt-7" = (RJSON 200 out, tr') /\
      Identifiers out = ["mf1"; "alt-7"; "tape 12"] /\
      ServiceURL out
      = [{| URL := queryURL solr core (fallbackQuery "alt-7");
            Protocol := "avalon-index" |}]) /\
  lookup emptyIndex "nope"
  = (RString 404 "nope not found",
     [primaryURL solr core "nope"; fallbackURL solr core "nope"]).
Proof.
  pose proof (fallback_only_without_hits_by_id solr core avalon memberIndex
                GoJSON.Unmarshal "alt-7") as (H1 & H2 & _).
  pose proof (fallback_only_without_hits_by_id solr core avalon emptyIndex
                GoJSON.Unmarshal "nope") as (_ & _ & H3).
  split; [| split].
  - apply H1.
    exists (bodyOf memberIndex (primaryURL solr core "alt-7")),
      (decodedOf memberIndex (primaryURL solr core "alt-7") zeroResponse).
    repeat split; evaluate.
  - apply (H2 (bodyOf memberIndex (primaryURL solr core "alt-7"))
              (decodedOf memberIndex (primaryURL solr core "alt-7") zeroResponse)
              (bodyOf memberIndex (fallbackURL solr core "alt-7"))
              None
              (decodedOf memberIndex (fallbackURL solr core "alt-7")
                 (decodedOf memberIndex (primaryURL solr core "alt-7")
                    zeroResponse))
              memberDoc); try evaluate.
    + split; evaluate.
    + exists "MasterFile". split; [reflexivity | intros _; discriminate].
  - apply (H3 (bodyOf emptyIndex (primaryURL solr core "nope"))
              (decodedOf emptyIndex (primaryURL solr core "nope") zeroResponse)
              (bodyOf emptyIndex (fallbackURL solr core "nope"))
              None
              (decodedOf emptyIndex (fallbackURL solr core "nope")
                 (decodedOf emptyIndex (primaryURL solr core "nope")
                    zeroResponse))); evaluate.
Defined.

Lemma derivative_files_best_effort_witness :
  (exists out,
      lookup memberIndex "alt-7"
      = (RJSON 200 out,
         [primaryURL solr core "alt-7"; fallbackURL solr core "alt-7";
          derivedURL solr core "mf1"]) /\
      DerivativeFile out = ["/derivatives/high.mp4"; "/derivatives/low.mp4"] /\
      length (DerivativeFile out) = 2%nat) /\
  (exists out,
      lookup memberIndexBadDerived "mf1"
      = (RJSON 200 out,
         [primaryURL solr core "mf1"; derivedURL solr core "mf1"]) /\
      DerivativeFile out = []) /\
  (exists out,
      lookup memberIndexNoDerived "mf1"
      = (RJSON 200 out,
         [primaryURL solr core "mf1"; derivedURL solr core "mf1"]) /\
      DerivativeFile out = []).
Proof.
  split; [| split].
  - assert (exactlyOne
              (decodedOf memberIndex (fallbackURL solr core "alt-7")
                 (decodedOf memberIndex (primaryURL solr core "alt-7")
                    zeroResponse))
              memberDoc) as E by (split; evaluate).
    destruct (derivative_files_best_effort solr core avalon memberIndex
                GoJSON.Unmarshal "alt-7" _ _ _ _ memberDoc "MasterFile" "mo9"
                [] [] member_found E eq_refl ltac:(discriminate) eq_refl)
      as (H & _).
    destruct (H (bodyOf memberIndex (derivedURL solr core "mf1")) None
                (decodedOf memberIndex (derivedURL solr core "mf1")
                   (decodedOf memberIndex (fallbackURL solr core "alt-7")
                      (decodedOf memberIndex (primaryURL solr core "alt-7")
                         zeroResponse))))
      as (out & L & D & N); [evaluate | evaluate |].
    exists out. split; [exact L | split; [exact D | exact N]].
  - assert (exactlyOne
              (decodedOf memberIndexNoDerived (primaryURL solr core "mf1")
                 zeroResponse)
              bareMemberDoc) as E by (split; evaluate).
    destruct (derivative_files_best_effort solr core avalon
                memberIndexBadDerived GoJSON.Unmarshal "mf1" _ _ _ _
                bareMemberDoc "MasterFile" "mo9" [] []
                (bare_member_found memberIndexBadDerived eq_refl) E eq_refl
                ltac:(discriminate) eq_refl)
      as (_ & H & _).
    destruct (H "<html>busy</html>" None
                (decodedOf memberIndexNoDerived (primaryURL solr core "mf1")
                   zeroResponse) "json: syntax error")
      as (out & L & D); [evaluate | evaluate |].
    exists out. split; [exact L | exact D].
  - assert (exactlyOne
              (decodedOf memberIndexNoDerived (primaryURL solr core "mf1")
                 zeroResponse)
              bareMemberDoc) as E by (split; evaluate).
    destruct (derivative_files_best_effort solr core avalon
                memberIndexNoDerived GoJSON.Unmarshal "mf1" _ _ _ _
                bareMemberDoc "MasterFile" "mo9" [] []
                (bare_member_found memberIndexNoDerived eq_refl) E eq_refl
                ltac:(discriminate) eq_refl)
      as (_ & _ & H).
    destruct (H Unmarshal_empty
                "dial tcp 127.0.0.1:8983: connect: connection refused")
      as (out & L & D); [evaluate |].
    exists out. split; [exact L | exact D].
Defined.
